(** * SRM Syllabus Finder: query resolution, fallback orchestration, rendering

    A shallow embedding of the JavaScript sources of the syllabus chat bot:
    - [src/llm.js]                    (module [Llm] below),
    - the "Study Buddy" variants of llm.js (modules [StudyBuddyRag] and
      [StudyBuddy]),
    - the chat front end with [processQuery] and [findSubjectInQuery].

    Conventions of the embedding.
    - A JS string is a Rocq [string]; a character is one byte.  Literals of
      the source that are not ASCII stand for their UTF-8 bytes.  The case
      mapping [toLowerCase], the white space of [trim] and the classes
      [\s], [\d], [.] are the ASCII ones.
    - [null] and [undefined] are constructors of [jsval]; a function that
      returns [null] or a string returns an [option string] when nothing
      else is possible.
    - The module-level variable [conversationHistory] is passed explicitly.
    - The network is an input: the outcome of each [fetch] is a value of
      type [fetchResult]. *)

From Stdlib Require Import Bool Arith NArith List Lia.
From Stdlib Require Import Strings.Ascii Strings.String Numbers.DecimalString.
From Stdlib Require Floats.SpecFloat.
Import ListNotations.

Open Scope list_scope.
Open Scope string_scope.

(* ================================================================== *)
(** ** JavaScript string primitives *)

Definition dq : string := String "034"%char EmptyString.
Definition nl : string := String "010"%char EmptyString.

(** [`${n}`] for a non-negative integer. *)
Definition showNum (n : N) : string := NilZero.string_of_uint (N.to_uint n).

Definition isUpper (c : ascii) : bool :=
  let n := nat_of_ascii c in ((65 <=? n) && (n <=? 90))%nat.

Definition lowerChar (c : ascii) : ascii :=
  if isUpper c then ascii_of_nat (nat_of_ascii c + 32) else c.

(** [String.prototype.toLowerCase] *)
Fixpoint toLowerCase (s : string) : string :=
  match s with
  | EmptyString => EmptyString
  | String c s' => String (lowerChar c) (toLowerCase s')
  end.

(** [String.prototype.startsWith] *)
Fixpoint startsWith (s p : string) {struct p} : bool :=
  match p with
  | EmptyString => true
  | String a p' =>
      match s with
      | EmptyString => false
      | String b s' => Ascii.eqb a b && startsWith s' p'
      end
  end.

(** [String.prototype.includes] *)
Fixpoint includes (s sub : string) : bool :=
  startsWith s sub ||
  match s with
  | EmptyString => false
  | String _ s' => includes s' sub
  end.

Definition isSpace (c : ascii) : bool :=
  let n := nat_of_ascii c in (((9 <=? n) && (n <=? 13)) || (n =? 32))%nat.

Definition isDigit (c : ascii) : bool :=
  let n := nat_of_ascii c in ((48 <=? n) && (n <=? 57))%nat.

Definition isLineTerminator (c : ascii) : bool :=
  let n := nat_of_ascii c in ((n =? 10) || (n =? 13))%nat.

Fixpoint trimStart (s : string) : string :=
  match s with
  | EmptyString => EmptyString
  | String c s' => if isSpace c then trimStart s' else s
  end.

Fixpoint trimEnd (s : string) : string :=
  match s with
  | EmptyString => EmptyString
  | String c s' =>
      match trimEnd s' with
      | EmptyString => if isSpace c then EmptyString else String c EmptyString
      | t => String c t
      end
  end.

(** [String.prototype.trim] *)
Definition trim (s : string) : string := trimEnd (trimStart s).

(** [Array.prototype.join] *)
Fixpoint join (sep : string) (l : list string) : string :=
  match l with
  | [] => EmptyString
  | [x] => x
  | x :: rest => x ++ sep ++ join sep rest
  end.

Fixpoint firstChars (n : nat) (s : string) : string :=
  match n, s with
  | S n', String c s' => String c (firstChars n' s')
  | _, _ => EmptyString
  end.

(** [parseInt] of a string of decimal digits. *)
Definition parseInt (digits : string) : N :=
  fold_left (fun acc c => (acc * 10 + (N_of_ascii c - 48))%N)
            (list_ascii_of_string digits) 0%N.

(** JS values that cross the HTTP boundary where a string is expected. *)
Inductive jsval : Type :=
| JUndefined
| JNull
| JStr (s : string).

(** Truthiness: [undefined], [null] and the empty string are falsy. *)
Definition truthy (v : jsval) : bool :=
  match v with
  | JStr (String _ _) => true
  | _ => false
  end.

(** String conversion inside a template literal or [+]. *)
Definition toStr (v : jsval) : string :=
  match v with
  | JUndefined => "undefined"
  | JNull => "null"
  | JStr s => s
  end.

(* ================================================================== *)
(** ** Regular expressions

    A backtracking matcher with the priorities of the ECMAScript
    semantics: alternatives left to right, greedy repetition tries one
    more iteration first, lazy repetition tries the continuation first.
    Only the constructs that occur in the sources are present.  An
    iteration of a repetition has to consume a character; every repeated
    expression of the sources ([.], [\s], [\d], [<li>.+</li>]) does, and
    this bounds the number of iterations by the length of the input. *)

Inductive regex : Type :=
| RLit (s : string)                        (* literal characters        *)
| RDot                                     (* .                         *)
| RSpace                                   (* \s                        *)
| RDigit                                   (* \d                        *)
| RBol                                     (* ^ under the flag m        *)
| REol                                     (* $ under the flag m        *)
| RSeq (a b : regex)
| RAlt (a b : regex)                       (* a|b                       *)
| RRep (min : nat) (greedy : bool) (r : regex)   (* r* r+ r*? r+?       *)
| RGroup (i : nat) (r : regex).            (* i-th capturing group      *)

Record mstate : Type := MState {
  prev : option ascii;          (* the character before the position    *)
  rest : string;                (* the input from the position on       *)
  caps : list (nat * string)    (* captures so far, latest first        *)
}.

Definition charEq (ic : bool) (a b : ascii) : bool :=
  if ic then Ascii.eqb (lowerChar a) (lowerChar b) else Ascii.eqb a b.

(** Consume the literal [p] from the front of the input. *)
Fixpoint eatLit (ic : bool) (p : string) (pv : option ascii) (s : string)
         {struct p} : option (option ascii * string) :=
  match p with
  | EmptyString => Some (pv, s)
  | String a p' =>
      match s with
      | EmptyString => None
      | String b s' => if charEq ic a b then eatLit ic p' (Some b) s' else None
      end
  end.

Definition eatClass (f : ascii -> bool) (st : mstate)
           (k : mstate -> option mstate) : option mstate :=
  match rest st with
  | EmptyString => None
  | String c s' => if f c then k (MState (Some c) s' (caps st)) else None
  end.

Definition atBol (st : mstate) : bool :=
  match prev st with
  | None => true
  | Some c => isLineTerminator c
  end.

Definition atEol (st : mstate) : bool :=
  match rest st with
  | EmptyString => true
  | String c _ => isLineTerminator c
  end.

(** The text consumed between two states of one match. *)
Definition consumed (st st' : mstate) : string :=
  firstChars (length (rest st) - length (rest st')) (rest st).

Fixpoint rmatch (ic : bool) (r : regex) (st : mstate)
         (k : mstate -> option mstate) {struct r} : option mstate :=
  match r with
  | RLit p =>
      match eatLit ic p (prev st) (rest st) with
      | Some (pv, s') => k (MState pv s' (caps st))
      | None => None
      end
  | RDot => eatClass (fun c => negb (isLineTerminator c)) st k
  | RSpace => eatClass isSpace st k
  | RDigit => eatClass isDigit st k
  | RBol => if atBol st then k st else None
  | REol => if atEol st then k st else None
  | RSeq a b => rmatch ic a st (fun st' => rmatch ic b st' k)
  | RAlt a b =>
      match rmatch ic a st k with
      | Some m => Some m
      | None => rmatch ic b st k
      end
  | RGroup i a =>
      rmatch ic a st
             (fun st' => k (MState (prev st') (rest st')
                                   ((i, consumed st st') :: caps st')))
  | RRep min greedy a =>
      (fix loop (fuel : nat) (min : nat) (st : mstate) {struct fuel}
         : option mstate :=
         match fuel with
         | O => match min with O => k st | S _ => None end
         | S fuel' =>
             let again (_ : unit) :=
               rmatch ic a st
                 (fun st' =>
                    if (length (rest st') <? length (rest st))%nat
                    then loop fuel' (Nat.pred min) st'
                    else None) in
             match min with
             | S _ => again tt
             | O =>
                 if greedy
                 then match again tt with
                      | Some m => Some m
                      | None => k st
                      end
                 else match k st with
                      | Some m => Some m
                      | None => again tt
                      end
             end
         end) (S (length (rest st))) min st
  end.

(** One attempt at one position; [Some] carries the end of the match. *)
Definition rexec (ic : bool) (r : regex) (pv : option ascii) (s : string)
  : option mstate :=
  rmatch ic r (MState pv s []) Some.

Fixpoint capture (i : nat) (cs : list (nat * string)) : string :=
  match cs with
  | [] => EmptyString
  | (j, v) :: cs' => if Nat.eqb i j then v else capture i cs'
  end.

(** Replacement patterns: literal text, [$n], [$&]. *)
Inductive tpiece : Type :=
| TLit (s : string)
| TGroup (i : nat)
| TWhole.

Definition expand (t : list tpiece) (whole : string) (m : mstate) : string :=
  fold_right
    (fun p acc =>
       match p with
       | TLit s => s ++ acc
       | TGroup i => capture i (caps m) ++ acc
       | TWhole => whole ++ acc
       end) EmptyString t.

(** [s.replace(/r/g, t)]: scan left to right; after a match resume at its
    end ([skip] counts the characters of the match still to pass over). *)
Fixpoint replaceFrom (ic : bool) (r : regex) (t : list tpiece)
         (pv : option ascii) (s : string) (skip : nat) {struct s} : string :=
  match skip with
  | S n =>
      match s with
      | EmptyString => EmptyString
      | String c s' => replaceFrom ic r t (Some c) s' n
      end
  | O =>
      match rexec ic r pv s with
      | Some m =>
          let len := length s - length (rest m) in
          expand t (firstChars len s) m ++
          match s with
          | EmptyString => EmptyString
          | String c s' =>
              match len with
              | O => String c (replaceFrom ic r t (Some c) s' 0)
              | S n => replaceFrom ic r t (Some c) s' n
              end
          end
      | None =>
          match s with
          | EmptyString => EmptyString
          | String c s' => String c (replaceFrom ic r t (Some c) s' 0)
          end
      end
  end.

Definition replaceAll (ic : bool) (r : regex) (t : list tpiece) (s : string)
  : string :=
  replaceFrom ic r t None s 0.

(** [s.match(/r/)] without the flag g: the first match, left to right. *)
Fixpoint searchFrom (ic : bool) (r : regex) (pv : option ascii) (s : string)
  : option mstate :=
  match rexec ic r pv s with
  | Some m => Some m
  | None =>
      match s with
      | EmptyString => None
      | String c s' => searchFrom ic r (Some c) s'
      end
  end.

Definition jsMatch (ic : bool) (r : regex) (s : string) : option mstate :=
  searchFrom ic r None s.

Definition RStar (r : regex) : regex := RRep 0 true r.
Definition RPlus (r : regex) : regex := RRep 1 true r.
Definition RPlusLazy (r : regex) : regex := RRep 1 false r.

Fixpoint rseq (l : list regex) : regex :=
  match l with
  | [] => RLit EmptyString
  | [r] => r
  | r :: l' => RSeq r (rseq l')
  end.

Fixpoint ralt (l : list regex) : regex :=
  match l with
  | [] => RLit EmptyString
  | [r] => r
  | r :: l' => RAlt r (ralt l')
  end.

(* ================================================================== *)
(** ** History ring: [conversationHistory], [MAX_HISTORY], [addToHistory]

    The same in every variant of llm.js that keeps a history. *)

Inductive Role : Type := user | assistant.

Record Turn : Type := mkTurn { role : Role; content : string }.

Definition MAX_HISTORY : nat := 10.

(** [push], then [shift] when the length exceeds [MAX_HISTORY]. *)
Definition addToHistory (conversationHistory : list Turn)
           (role : Role) (content : string) : list Turn :=
  let pushed := (conversationHistory ++ [mkTurn role content])%list in
  if (MAX_HISTORY <? List.length pushed)%nat then tl pushed else pushed.

(** A run of calls, oldest first. *)
Definition appendAll (h : list Turn) (ts : list Turn) : list Turn :=
  fold_left (fun acc t => addToHistory acc (role t) (content t)) ts h.

(* ================================================================== *)
(** ** Catalog data *)

Record Unit : Type := mkUnit {
  number : N;
  title : string;
  topics : list string
}.

Record Subject : Type := mkSubject {
  code : string;
  name : string;
  fullName : string;
  credits : N;
  type : string;
  units : list Unit
}.

(** The object handed to the model call as [syllabusContext]; its property
    [subjects] may be absent. *)
Record Catalog : Type := mkCatalog { subjects : option (list Subject) }.

(** [x || []] *)
Definition orEmpty {A : Type} (x : option (list A)) : list A :=
  match x with
  | Some l => l
  | None => []
  end.

(* ================================================================== *)
(** ** The local responder: [generateLocalResponse] *)

(** The body of the loop over [subject.units || []]; an array is truthy,
    so the guard returns the array itself. *)
Definition unitBlock (response : string) (u : Unit) : string :=
  response
    ++ ("**Unit " ++ showNum (number u) ++ ": " ++ title u ++ "**" ++ nl)
    ++ (join nl (map (fun t => "• " ++ t) (topics u)) ++ nl ++ nl).

Definition subjectDump (subject : Subject) : string :=
  fold_left unitBlock (units subject)
            ("**" ++ name subject ++ "** (" ++ code subject ++ ")" ++ nl ++ nl).

Definition nameMatches (queryLower : string) (subject : Subject) : bool :=
  includes (toLowerCase (name subject)) queryLower
  || includes queryLower (toLowerCase (name subject)).

(** The [for ... of] loop with its early [return]. *)
Fixpoint searchSubjects (queryLower : string) (l : list Subject)
  : option string :=
  match l with
  | [] => None
  | subject :: l' =>
      if nameMatches queryLower subject then Some (subjectDump subject)
      else searchSubjects queryLower l'
  end.

Definition subjectListing (l : list Subject) : string :=
  "I couldn't connect to the AI backend. Here are the available subjects: "
    ++ join ", " (map name l) ++ nl ++ nl
    ++ "Try asking about a specific subject like " ++ dq ++ "Machine Learning"
    ++ dq ++ " or " ++ dq ++ "Deep Learning" ++ dq ++ ".".

Definition generateLocalResponse (query : string) (syllabusData : Catalog)
  : string :=
  let queryLower := toLowerCase query in
  match searchSubjects queryLower (orEmpty (subjects syllabusData)) with
  | Some response => response
  | None => subjectListing (orEmpty (subjects syllabusData))
  end.

(* ================================================================== *)
(** ** The network as an input *)

(** The outcome of one [fetch]: the promise rejects, or a response arrives
    with a status; [text] and [json] are what [response.text()] and
    [response.json()] resolve to, [None] when they reject. *)
Inductive fetchResult (D : Type) : Type :=
| FetchRejected
| HttpResponse (status : N) (text : option string) (json : option D).

Arguments FetchRejected {D}.
Arguments HttpResponse {D} status text json.

(** [response.ok] *)
Definition ok (status : N) : bool := ((200 <=? status) && (status <=? 299))%N.

(** Body of the chat-completion endpoint, as far as it is read:
    [data.error] (its truthiness) and
    [data.choices?.[0]?.message?.content]. *)
Record ChatData : Type := mkChatData { error : bool; choiceContent : jsval }.

(** An entry of [data.sources]. *)
Record Source : Type := mkSource { srcSubject : jsval; srcUnit : jsval }.

(** Body of the endpoint /api/query: [data.response], [data.sources]. *)
Record QueryData : Type := mkQueryData {
  response : jsval;
  sources : option (list Source)
}.

(** Body of the Gemini endpoint:
    [data.candidates?.[0]?.content?.parts?.[0]?.text]. *)
Record GeminiData : Type := mkGeminiData { candidateText : jsval }.

(* ================================================================== *)
(** ** Response renderer: [formatLLMResponse]

    The function is the same, character for character, in src/llm.js and
    in the other variants of that file, except for the Study Buddy variant
    that adds one substitution for lines starting with a bullet sign and
    for the variant that delegates to the library marked.js. *)

Module Render.

(** [/^### (.+)$/gm], [/^## (.+)$/gm], [/^# (.+)$/gm] *)
Definition reHeader (hashes : string) : regex :=
  rseq [RBol; RLit (hashes ++ " "); RGroup 1 (RPlus RDot); REol].

Definition tag (name : string) : list tpiece :=
  [TLit ("<" ++ name ++ ">"); TGroup 1; TLit ("</" ++ name ++ ">")].

(** [/\*\*(.+?)\*\*/g], [/\*(.+?)\*/g] and the same with a backquote *)
Definition reDelim (d : string) : regex :=
  rseq [RLit d; RGroup 1 (RPlusLazy RDot); RLit d].

Definition backquote : string := String "096"%char EmptyString.

(** [/\n\n/g] and [/\n/g] *)
Definition reBlank : regex := RLit (nl ++ nl).
Definition reNewline : regex := RLit nl.

(** [/<p>- (.+?)(<br>|<\/p>)/g] and the variant with a bullet sign *)
Definition reItem (mark : string) : regex :=
  rseq [RLit ("<p>" ++ mark ++ " "); RGroup 1 (RPlusLazy RDot);
        RGroup 2 (RAlt (RLit "<br>") (RLit "</p>"))].

Definition tItem : list tpiece :=
  [TLit "<li>"; TGroup 1; TLit "</li>"; TGroup 2].

(** [/(<li>.+<\/li>)+/g] with the replacement ['<ul>$&</ul>'] *)
Definition reItems : regex :=
  RPlus (RGroup 1 (rseq [RLit "<li>"; RPlus RDot; RLit "</li>"])).

Definition tList : list tpiece := [TLit "<ul>"; TWhole; TLit "</ul>"].

(** The bullet sign U+2022 in UTF-8. *)
Definition bullet : string :=
  String "226"%char (String "128"%char (String "162"%char EmptyString)).

(** The chain of [replace] calls on [text], up to the line breaks. *)
Definition inlineMarkup (text : string) : string :=
  let s := replaceAll false (reHeader "###") (tag "h4") text in
  let s := replaceAll false (reHeader "##") (tag "h3") s in
  let s := replaceAll false (reHeader "#") (tag "h2") s in
  let s := replaceAll false (reDelim "**") (tag "strong") s in
  let s := replaceAll false (reDelim "*") (tag "em") s in
  let s := replaceAll false (reDelim backquote) (tag "code") s in
  let s := replaceAll false reBlank [TLit "</p><p>"] s in
  replaceAll false reNewline [TLit "<br>"] s.

Definition wrap (html : string) : string := "<p>" ++ html ++ "</p>".

(** [marks] are the list markers the variant converts: only the dash in
    src/llm.js, the dash and then the bullet sign in the Study Buddy
    variant. *)
Definition formatWith (marks : list string) (text : jsval) : option string :=
  if negb (truthy text) then None
  else
    let html := wrap (inlineMarkup (toStr text)) in
    let html :=
      fold_left (fun h mark => replaceAll false (reItem mark) tItem h)
                marks html in
    Some (replaceAll false reItems tList html).

End Render.

(** The warning sign U+26A0 U+FE0F and the books sign U+1F4DA. *)
Definition warningSign : string := "⚠️".
Definition booksSign : string := "📚".

(* ================================================================== *)
(** ** src/llm.js *)

Module Llm.

Definition rateLimitNotice : string :=
  warningSign ++ " Rate limit reached. Please wait a moment and try again.".

(** src/llm.js, [callLLM]: the result and the history afterwards.  The
    syllabus context goes into the request only. *)
Definition callLLM (conversationHistory : list Turn) (userMessage : string)
           (syllabusContext : Catalog) (net : fetchResult ChatData)
  : option string * list Turn :=
  let h := addToHistory conversationHistory user userMessage in
  match net with
  | FetchRejected => (None, h)
  | HttpResponse status text json =>
      if negb (ok status) then
        match text with
        | None => (None, h)
        | Some errorText =>
            if (status =? 429)%N then (Some rateLimitNotice, h) else (None, h)
        end
      else
        match json with
        | None => (None, h)
        | Some data =>
            if error data then (None, h)
            else if truthy (choiceContent data)
                 then let assistantMessage := toStr (choiceContent data) in
                      (Some assistantMessage,
                       addToHistory h assistant assistantMessage)
                 else (None, h)
        end
  end.

(** [formatLLMResponse] *)
Definition formatLLMResponse (text : jsval) : option string :=
  Render.formatWith ["-"] text.

End Llm.

(* ================================================================== *)
(** ** The Study Buddy variant of llm.js with the RAG backend and Gemini *)

Module StudyBuddyRag.

(** [fallbackLLMCall]; [geminiKey] is
    [LLM_CONFIG.geminiKey || localStorage.getItem('GEMINI_API_KEY')]. *)
Definition fallbackLLMCall (userMessage : string) (syllabusContext : Catalog)
           (geminiKey : jsval) (net : fetchResult GeminiData) : string :=
  if negb (truthy geminiKey) then
    warningSign ++ " Backend unavailable and no API key configured. Please set up the backend or add a Gemini API key."
  else
    match net with
    | HttpResponse status _ (Some data) =>
        if ok status then
          if truthy (candidateText data) then toStr (candidateText data)
          else "I couldn't generate a response."
        else "Sorry, I'm having trouble connecting. Please try again."
    | _ => "Sorry, I'm having trouble connecting. Please try again."
    end.

Definition sourceLine (s : Source) : string :=
  booksSign ++ " " ++ toStr (srcSubject s) ++ " - " ++ toStr (srcUnit s).

Definition notUnknown (s : Source) : bool :=
  match srcSubject s with
  | JStr x => negb (String.eqb x "Unknown")
  | _ => true
  end.

(** [callLLM] of the variant that tries the RAG backend and then Gemini. *)
Definition callLLM (conversationHistory : list Turn) (userMessage : string)
           (syllabusContext : Catalog) (geminiKey : jsval)
           (net1 : fetchResult QueryData) (net2 : fetchResult GeminiData)
  : jsval * list Turn :=
  let h := addToHistory conversationHistory user userMessage in
  let fallback (_ : unit) :=
    fallbackLLMCall userMessage syllabusContext geminiKey net2 in
  match net1 with
  | HttpResponse status _ json =>
      if ok status then
        match json with
        | Some data =>
            let assistantMessage := response data in
            let h' := if truthy assistantMessage
                      then addToHistory h assistant (toStr assistantMessage)
                      else h in
            match sources data with
            | Some (s :: ss) =>
                let sourceInfo :=
                  join nl (map sourceLine (filter notUnknown (s :: ss))) in
                (JStr (toStr assistantMessage ++
                       match sourceInfo with
                       | EmptyString => EmptyString
                       | _ => nl ++ nl ++ "---" ++ nl ++ "*Sources:*" ++ nl
                                 ++ sourceInfo
                       end), h')
            | _ => (assistantMessage, h')
            end
        | None => (JStr (fallback tt), h)
        end
      else (JStr (fallback tt), h)
  | FetchRejected => (JStr (fallback tt), h)
  end.

(** [formatLLMResponse] *)
Definition formatLLMResponse (text : jsval) : option string :=
  Render.formatWith ["-"] text.

End StudyBuddyRag.

(* ================================================================== *)
(** ** The Study Buddy variant of llm.js with the local fallback *)

Module StudyBuddy.

(** [callLLM] of the variant that falls back to [generateLocalResponse]:
    a response that is not ok throws inside the [try], whatever its
    status, and the [catch] answers from the local catalog. *)
Definition callLLM (conversationHistory : list Turn) (userMessage : string)
           (syllabusContext : Catalog) (net : fetchResult QueryData)
  : jsval * list Turn :=
  let h := addToHistory conversationHistory user userMessage in
  match net with
  | HttpResponse status _ json =>
      if negb (ok status) then
        (JStr (generateLocalResponse userMessage syllabusContext), h)
      else
        match json with
        | Some data =>
            let assistantMessage := response data in
            let h' := if truthy assistantMessage
                      then addToHistory h assistant (toStr assistantMessage)
                      else h in
            match sources data with
            | Some (s :: ss) =>
                let sourceInfo :=
                  join ", " (map (fun s => booksSign ++ " " ++ toStr (srcSubject s))
                                 (s :: ss)) in
                (JStr (toStr assistantMessage ++ nl ++ nl ++ "---" ++ nl
                         ++ "*Source: " ++ sourceInfo ++ "*"), h')
            | _ => (assistantMessage, h')
            end
        | None => (JStr (generateLocalResponse userMessage syllabusContext), h)
        end
  | FetchRejected =>
      (JStr (generateLocalResponse userMessage syllabusContext), h)
  end.

(** [formatLLMResponse], with the extra substitution for the bullet sign *)
Definition formatLLMResponse (text : jsval) : option string :=
  Render.formatWith ["-"; Render.bullet] text.

End StudyBuddy.

(* ================================================================== *)
(** ** The chat front end: [processQuery] and its helpers *)

(** A hit of the topic search, with the properties the front end reads:
    [subject] (the subject's name), [subjectCode], [unit] (the unit's
    number), [unitTitle], [topic]. *)
Record TopicMatch : Type := mkTopicMatch {
  tmSubject : string;
  tmSubjectCode : string;
  tmUnit : N;
  tmUnitTitle : string;
  tmTopic : string
}.

(** What the front end uses of the data module (data.js), which declares
    the global [syllabusData] and the lookup functions and is not among
    the sources: [syllabusData.subjects], [findSubject],
    [findSubjectUnit] (an object with [subject] and [unit], or nothing),
    [searchTopics], [getAllSubjects]. *)
Record DataModule : Type := mkDataModule {
  syllabusData : list Subject;
  findSubject : string -> option Subject;
  findSubjectUnit : string -> N -> option (Subject * option Unit);
  searchTopics : string -> list TopicMatch;
  getAllSubjects : list Subject
}.

(** The value of [response] at the end of [processQuery]: a string of
    markup, or a DOM element given by the markup assigned to its
    [innerHTML]. *)
Inductive botResponse : Type :=
| RString (html : string)
| RElement (innerHTML : string).

Definition responseText (r : botResponse) : string :=
  match r with
  | RString s => s
  | RElement s => s
  end.

(** [subject.units.length] *)
Definition unitCount (subject : Subject) : N :=
  N.of_nat (List.length (units subject)).

Definition keywords : list (string * string) :=
  [("agent", "AgentOps"); ("agentops", "AgentOps");
   ("ml", "Machine Learning"); ("machine", "Machine Learning");
   ("deep", "Deep Learning"); ("dl", "Deep Learning");
   ("nlp", "NLP"); ("natural", "NLP"); ("language", "NLP");
   ("cv", "Computer Vision"); ("vision", "Computer Vision");
   ("image", "Computer Vision")].

Section FrontEnd.

(** The data module in scope of the front end. *)
Variable d : DataModule.

Definition subjectInQuery (q : string) (subject : Subject) : bool :=
  includes q (toLowerCase (name subject))
  || includes q (toLowerCase (code subject))
  || includes q (toLowerCase (fullName subject)).

(** [findSubjectInQuery]: the two loops with their early [return]s. *)
Definition findSubjectInQuery (query : string) : option Subject :=
  let q := toLowerCase query in
  match find (subjectInQuery q) (syllabusData d) with
  | Some subject => Some subject
  | None =>
      match find (fun kw => includes q (fst kw)) keywords with
      | Some (keyword, subjectName) => findSubject d subjectName
      | None => None
      end
  end.

(** [createSyllabusCard]: the markup assigned to [card.innerHTML]. *)
Definition createSyllabusCard (subject : Subject) : string :=
  "
        <p>Here's the complete syllabus for <strong>"
    ++ name subject
    ++ "</strong>:</p>
        <div class=" ++ dq ++ "syllabus-card" ++ dq ++ ">
            <div class=" ++ dq ++ "syllabus-header" ++ dq ++ ">
                <h3>"
    ++ fullName subject
    ++ "</h3>
                <span class=" ++ dq ++ "code" ++ dq ++ ">"
    ++ code subject
    ++ "</span>
            </div>
            <div class=" ++ dq ++ "syllabus-meta" ++ dq ++ ">
                <span>📚 "
    ++ showNum (credits subject)
    ++ " Credits</span>
                <span>📋 "
    ++ type subject
    ++ "</span>
                <span>📖 "
    ++ showNum (unitCount subject)
    ++ " Units</span>
            </div>
            <div class=" ++ dq ++ "syllabus-units" ++ dq ++ ">
                "
    ++ join EmptyString (map (fun u => "
                    <div class=" ++ dq ++ "unit" ++ dq ++ ">
                        <div class=" ++ dq ++ "unit-title" ++ dq ++ ">Unit "
    ++ showNum (number u)
    ++ ": "
    ++ title u
    ++ "</div>
                        <ul class=" ++ dq ++ "unit-topics" ++ dq ++ ">
                            "
    ++ join EmptyString (map (fun topic => "<li>"
    ++ topic
    ++ "</li>") (topics u))
    ++ "
                        </ul>
                    </div>
                ") (units subject))
    ++ "
            </div>
        </div>
    ".

(** [createUnitCard] *)
Definition createUnitCard (subject : Subject) (u : Unit) : string :=
  "
        <p>Here's <strong>Unit "
    ++ showNum (number u)
    ++ "</strong> of <strong>"
    ++ name subject
    ++ "</strong>:</p>
        <div class=" ++ dq ++ "syllabus-card" ++ dq ++ ">
            <div class=" ++ dq ++ "syllabus-header" ++ dq ++ ">
                <h3>"
    ++ title u
    ++ "</h3>
                <span class=" ++ dq ++ "code" ++ dq ++ ">"
    ++ code subject
    ++ " - Unit "
    ++ showNum (number u)
    ++ "</span>
            </div>
            <div class=" ++ dq ++ "syllabus-units" ++ dq ++ ">
                <div class=" ++ dq ++ "unit" ++ dq ++ ">
                    <ul class=" ++ dq ++ "unit-topics" ++ dq ++ ">
                        "
    ++ join EmptyString (map (fun topic => "<li>"
    ++ topic
    ++ "</li>") (topics u))
    ++ "
                    </ul>
                </div>
            </div>
        </div>
        <div class=" ++ dq ++ "suggestions" ++ dq ++ " style=" ++ dq ++ "margin-top: 12px;" ++ dq ++ ">
            "
    ++ (if (1 <? number u)%N then "<button class=" ++ dq ++ "suggestion-btn" ++ dq ++ " onclick=" ++ dq ++ "askQuestion('Show me "
    ++ name subject
    ++ " Unit "
    ++ showNum (number u - 1)
    ++ "')" ++ dq ++ ">← Unit "
    ++ showNum (number u - 1)
    ++ "</button>" else EmptyString)
    ++ "
            "
    ++ (if (number u <? unitCount subject)%N then "<button class=" ++ dq ++ "suggestion-btn" ++ dq ++ " onclick=" ++ dq ++ "askQuestion('Show me "
    ++ name subject
    ++ " Unit "
    ++ showNum (number u + 1)
    ++ "')" ++ dq ++ ">Unit "
    ++ showNum (number u + 1)
    ++ " →</button>" else EmptyString)
    ++ "
            <button class=" ++ dq ++ "suggestion-btn" ++ dq ++ " onclick=" ++ dq ++ "askQuestion('What is the complete syllabus for "
    ++ name subject
    ++ "?')" ++ dq ++ ">Full Syllabus</button>
        </div>
    ".

(** [createSubjectsList] *)
Definition createSubjectsList : string :=
  let subjects := getAllSubjects d in
  "
        <p>Here are all available <strong>CINTEL</strong> subjects:</p>
        <div class=" ++ dq ++ "subjects-list" ++ dq ++ ">
            "
    ++ join EmptyString (map (fun s => "
                <div class=" ++ dq ++ "subject-item" ++ dq ++ " onclick=" ++ dq ++ "askQuestion('What is the syllabus for "
    ++ name s
    ++ "?')" ++ dq ++ ">
                    <div>
                        <div class=" ++ dq ++ "name" ++ dq ++ ">"
    ++ fullName s
    ++ "</div>
                        <div class=" ++ dq ++ "code" ++ dq ++ ">"
    ++ code s
    ++ " • "
    ++ showNum (credits s)
    ++ " Credits • "
    ++ type s
    ++ "</div>
                    </div>
                    <span>→</span>
                </div>
            ") (subjects))
    ++ "
        </div>
    ".

(** A value of the object [grouped] in [createTopicResults]. *)
Record TopicGroup : Type := mkTopicGroup {
  grSubject : string;
  grSubjectCode : string;
  grUnit : N;
  grUnitTitle : string;
  grTopics : list string
}.

Definition groupKey (t : TopicMatch) : string :=
  tmSubjectCode t
    ++ "-"
    ++ showNum (tmUnit t).

(** One step of the [reduce]: the object [acc] keeps its keys in the order
    of their first insertion (no key here is an array index). *)
Fixpoint addToGroup (t : TopicMatch) (acc : list (string * TopicGroup))
  : list (string * TopicGroup) :=
  match acc with
  | [] =>
      [(groupKey t,
        mkTopicGroup (tmSubject t) (tmSubjectCode t) (tmUnit t)
                     (tmUnitTitle t) [tmTopic t])]
  | (k, g) :: acc' =>
      if String.eqb k (groupKey t)
      then (k, mkTopicGroup (grSubject g) (grSubjectCode g) (grUnit g)
                            (grUnitTitle g) (grTopics g ++ [tmTopic t])%list)
             :: acc'
      else (k, g) :: addToGroup t acc'
  end.

(** [createTopicResults] *)
Definition createTopicResults (topics : list TopicMatch) : string :=
  let grouped := fold_left (fun acc t => addToGroup t acc) topics [] in
  let results := map snd grouped in
  "
        <p>Found <strong>"
    ++ showNum (N.of_nat (List.length topics))
    ++ "</strong> matching topic(s):</p>
        <div class=" ++ dq ++ "subjects-list" ++ dq ++ ">
            "
    ++ join EmptyString (map (fun r => "
                <div class=" ++ dq ++ "subject-item" ++ dq ++ " onclick=" ++ dq ++ "askQuestion('Show me "
    ++ grSubject r
    ++ " Unit "
    ++ showNum (grUnit r)
    ++ "')" ++ dq ++ ">
                    <div>
                        <div class=" ++ dq ++ "name" ++ dq ++ ">"
    ++ hd EmptyString (grTopics r)
    ++ "</div>
                        <div class=" ++ dq ++ "code" ++ dq ++ ">"
    ++ grSubject r
    ++ " - Unit "
    ++ showNum (grUnit r)
    ++ ": "
    ++ grUnitTitle r
    ++ "</div>
                    </div>
                    <span>→</span>
                </div>
            ") (results))
    ++ "
        </div>
    ".

(** [/unit\s*(\d+)/i] *)
Definition reUnit : regex :=
  rseq [RLit "unit"; RStar RSpace; RGroup 1 (RPlus RDigit)].

(** [unitMatch ? parseInt(unitMatch[1]) : null].  The number is exact as
    long as it stays below 2^53. *)
Definition unitNumber (q : string) : option N :=
  match jsMatch true reUnit q with
  | Some m => Some (parseInt (capture 1 (caps m)))
  | None => None
  end.

(** [/topic|where|find|is|the|in|which/gi] *)
Definition reStopWords : regex :=
  ralt (map RLit ["topic"; "where"; "find"; "is"; "the"; "in"; "which"]).

(** The argument of [searchTopics] in [processQuery]. *)
Definition topicFragment (q : string) : string :=
  trim (replaceAll true reStopWords [] q).

Definition unitNotFound (unitNum : N) (subject : Subject) : string :=
  "<p>I couldn't find Unit "
    ++ showNum unitNum
    ++ " for <strong>"
    ++ name subject
    ++ "</strong>. This subject has "
    ++ showNum (unitCount subject)
    ++ " units.</p>".

Definition subjectNotIdentified : string :=
  "<p>I couldn't identify the subject. Try asking about a specific subject like:</p>
                <div class=" ++ dq ++ "suggestions" ++ dq ++ ">
                    <button class=" ++ dq ++ "suggestion-btn" ++ dq ++ " onclick=" ++ dq ++ "askQuestion('What is Unit 1 of AgentOps?')" ++ dq ++ ">Unit 1 of AgentOps</button>
                    <button class=" ++ dq ++ "suggestion-btn" ++ dq ++ " onclick=" ++ dq ++ "askQuestion('Show me Deep Learning Unit 2')" ++ dq ++ ">Deep Learning Unit 2</button>
                </div>".

Definition subjectNotFound : string :=
  "<p>I couldn't find that subject. Here are the available subjects:</p>".

Definition topicNotFound : string :=
  "<p>I couldn't find that topic. Try searching for something else or view a subject's syllabus.</p>".

Definition notSure : string :=
  "<p>I'm not sure what you're looking for. Here's what I can help you with:</p>
                <div class=" ++ dq ++ "suggestions" ++ dq ++ ">
                    <button class=" ++ dq ++ "suggestion-btn" ++ dq ++ " onclick=" ++ dq ++ "askQuestion('List all subjects')" ++ dq ++ ">📋 All Subjects</button>
                    <button class=" ++ dq ++ "suggestion-btn" ++ dq ++ " onclick=" ++ dq ++ "askQuestion('What is the syllabus for Machine Learning?')" ++ dq ++ ">🤖 ML Syllabus</button>
                    <button class=" ++ dq ++ "suggestion-btn" ++ dq ++ " onclick=" ++ dq ++ "askQuestion('Show me Deep Learning Unit 4')" ++ dq ++ ">🧠 DL Unit 4</button>
                </div>".

(** [processQuery], up to the value of [response]; the calls that follow
    ([hideTyping], [addMessage]) put that value into the page. *)
Definition processQuery (query : string) : botResponse :=
  let q := toLowerCase query in
  if includes q "list" && (includes q "subject" || includes q "all") then
    RString createSubjectsList
  else if includes q "unit" then
    let unitNum := unitNumber q in
    match findSubjectInQuery q with
    | Some subject =>
        match unitNum with
        | Some (Npos p) =>
            match findSubjectUnit d (name subject) (Npos p) with
            | Some (rsubject, Some runit) =>
                RElement (createUnitCard rsubject runit)
            | _ => RString (unitNotFound (Npos p) subject)
            end
        | _ => RElement (createSyllabusCard subject)
        end
    | None => RString subjectNotIdentified
    end
  else if includes q "syllabus" || includes q "what is"
          || includes q "show me" || includes q "tell me about" then
    match findSubjectInQuery q with
    | Some subject => RElement (createSyllabusCard subject)
    | None => RString (subjectNotFound ++ createSubjectsList)
    end
  else if includes q "topic" || includes q "where" || includes q "find" then
    let topics := searchTopics d (topicFragment q) in
    match topics with
    | _ :: _ => RString (createTopicResults topics)
    | [] => RString topicNotFound
    end
  else
    match findSubjectInQuery q with
    | Some subject => RElement (createSyllabusCard subject)
    | None => RString notSure
    end.

End FrontEnd.

(* ================================================================== *)
(** ** The data module, from its description *)

(** Modelled from the spec: [findSubject] of data.js, which is not among
    the sources.  Section 4.1: a case-insensitive containment match of
    the query against [name], [code], [fullName]; the first subject in
    catalog order wins; none when nothing matches. *)
Definition specFindSubject (subs : list Subject) (query : string)
  : option Subject :=
  let q := toLowerCase query in
  find (fun s => includes (toLowerCase (name s)) q
                 || includes (toLowerCase (code s)) q
                 || includes (toLowerCase (fullName s)) q) subs.

(** Modelled from the spec: [findSubjectUnit] of data.js, which is not
    among the sources.  Section 4.1: the unit of the named subject with
    the given number, or none. *)
Definition specFindSubjectUnit (subs : list Subject) (subjectName : string)
           (n : N) : option (Subject * option Unit) :=
  match specFindSubject subs subjectName with
  | Some s => Some (s, find (fun u => (number u =? n)%N) (units s))
  | None => None
  end.

(** Modelled from the spec: [searchTopics] of data.js, which is not among
    the sources.  Section 4.1: a case-insensitive substring match of the
    fragment against every topic of every unit of every subject, in
    catalog order; the empty fragment yields no result. *)
Definition specSearchTopics (subs : list Subject) (fragment : string)
  : list TopicMatch :=
  match fragment with
  | EmptyString => []
  | _ =>
      flat_map
        (fun s =>
           flat_map
             (fun u =>
                map (fun t => mkTopicMatch (name s) (code s) (number u)
                                           (title u) t)
                    (filter (fun t => includes (toLowerCase t)
                                               (toLowerCase fragment))
                            (topics u)))
             (units s))
        subs
  end.

(** Modelled from the spec: the data module over a list of subjects;
    [getAllSubjects] is the list in catalog order. *)
Definition specData (subs : list Subject) : DataModule :=
  mkDataModule subs (specFindSubject subs) (specFindSubjectUnit subs)
               (specSearchTopics subs) subs.

(* ================================================================== *)
(** ** A small catalog for the examples *)

Definition deepLearning : Subject :=
  mkSubject "21AIC401T" "Deep Learning" "Deep Learning Techniques" 3 "Theory"
    [mkUnit 1 "Foundations" ["Perceptron"; "Activation Functions"];
     mkUnit 2 "Optimisation" ["Gradient Descent"];
     mkUnit 3 "Training Networks" ["Backpropagation"; "Regularization"];
     mkUnit 4 "Convolutional Networks" ["Pooling"];
     mkUnit 5 "Sequence Models" ["Recurrent Networks"]].

Definition machineLearning : Subject :=
  mkSubject "21AIC301T" "Machine Learning" "Machine Learning Fundamentals" 4
    "Theory"
    [mkUnit 1 "Supervised Learning"
            ["Introduction to Machine Learning"; "Linear Regression"];
     mkUnit 2 "Unsupervised Learning" ["Clustering"]].

Definition demoSubjects : list Subject := [machineLearning; deepLearning].

Definition demoCatalog : Catalog := mkCatalog (Some demoSubjects).

Definition demoData : DataModule := specData demoSubjects.





(* ================================================================== *)
(** ** Notions used in the statements *)

(** The first tier of the RAG variant succeeds with a reply: the response
    is ok, its body parses, and [data.response] is truthy. *)
Definition ragReply (net : fetchResult QueryData) : option string :=
  match net with
  | HttpResponse status _ (Some data) =>
      if ok status && truthy (response data)
      then Some (toStr (response data)) else None
  | _ => None
  end.

(** The call of src/llm.js succeeds with a reply. *)
Definition chatReply (net : fetchResult ChatData) : option string :=
  match net with
  | HttpResponse status _ (Some data) =>
      if ok status && negb (error data) && truthy (choiceContent data)
      then Some (toStr (choiceContent data)) else None
  | _ => None
  end.

(** The history after a call: the user turn, then the reply if any. *)
Definition historyAfter (h : list Turn) (userMessage : string)
           (reply : option string) : list Turn :=
  match reply with
  | Some a => addToHistory (addToHistory h user userMessage) assistant a
  | None => addToHistory h user userMessage
  end.

(** The subject has a unit with the number [n]. *)
Definition hasUnit (subject : Subject) (n : N) : bool :=
  existsb (fun u => (number u =? n)%N) (units subject).

(** The character [c] does not occur in [s]. *)
Fixpoint lacks (c : ascii) (s : string) : bool :=
  match s with
  | EmptyString => true
  | String b s' => negb (Ascii.eqb c b) && lacks c s'
  end.

(** Text without the signs the renderer reacts to: not empty, no hash
    sign, asterisk, backquote, line feed or dash, and no tag [<li>]. *)
Definition plainText (text : string) : bool :=
  negb (String.eqb text EmptyString)
  && lacks "#" text && lacks "*" text && lacks "096" text
  && lacks "010" text && lacks "-" text
  && negb (includes text "<li>").

(** Every match of the expression begins with the literal [lit]
    (a sufficient syntactic condition, for matching with case). *)
Fixpoint startsLit (lit : string) (r : regex) : bool :=
  match r with
  | RLit p => startsWith p lit
  | RSeq RBol b => startsLit lit b
  | RSeq a _ => startsLit lit a
  | RAlt a b => startsLit lit a && startsLit lit b
  | RRep (S _) _ a => startsLit lit a
  | RGroup _ a => startsLit lit a
  | _ => false
  end.

Definition scriptPayload : string := "<script>alert(1)</script>".

Definition twelveTurns : list Turn :=
  map (fun c => mkTurn user c)
      ["t1"; "t2"; "t3"; "t4"; "t5"; "t6"; "t7"; "t8"; "t9"; "t10"; "t11";
       "t12"].

(* ================================================================== *)
(** ** The request of the Study Buddy variants

    Both variants send [{query: userMessage, history:
    conversationHistory.slice(-5)}] to the endpoint /api/query, after the
    user turn has been appended. *)

(** [array.slice(-n)] *)
Definition sliceLast {A : Type} (n : nat) (l : list A) : list A :=
  skipn (List.length l - n) l.

Record QueryRequest : Type := mkQueryRequest {
  reqQuery : string;
  reqHistory : list Turn
}.

Definition queryRequest (conversationHistory : list Turn)
           (userMessage : string) : QueryRequest :=
  let h := addToHistory conversationHistory user userMessage in
  mkQueryRequest userMessage (sliceLast 5 h).

(* ================================================================== *)
(** ** src/llm.js: where the request goes and what it carries *)

Module LlmRequest.

(** [window.location], as far as it is read. *)
Record Location : Type := mkLocation { hostname : string; href : string }.

Definition nonEmpty (s : string) : bool :=
  match s with
  | EmptyString => false
  | String _ _ => true
  end.

Definition isLocal (loc : Location) : bool :=
  String.eqb (hostname loc) "localhost"
  || String.eqb (hostname loc) "127.0.0.1".

(** [isLocal && LLM_CONFIG.localApiKey], as a condition. *)
Definition useDirectApi (loc : Location) (localApiKey : string) : bool :=
  isLocal loc && nonEmpty localApiKey.

Definition apiUrl (loc : Location) (localApiKey : string) : string :=
  if useDirectApi loc localApiKey
  then "https://openrouter.ai/api/v1/chat/completions"
  else "/api/chat".

(** The object [headers], its properties in the order of their creation. *)
Definition headers (loc : Location) (localApiKey : string)
  : list (string * string) :=
  ("Content-Type", "application/json")
    :: (if useDirectApi loc localApiKey
        then [("Authorization", "Bearer " ++ localApiKey);
              ("HTTP-Referer", href loc);
              ("X-Title", "SRM Syllabus Finder")]
        else []).

(** [isLLMConfigured] *)
Definition isLLMConfigured (loc : Location) (localApiKey : string) : bool :=
  negb (isLocal loc) || nonEmpty localApiKey.

End LlmRequest.

(* ================================================================== *)
(** ** Runs of calls *)

(** The history after a run of calls of [callLLM], oldest first, from the
    empty history the module starts with. *)
Definition llmSession (calls : list (string * Catalog * fetchResult ChatData))
  : list Turn :=
  fold_left (fun h c => snd (Llm.callLLM h (fst (fst c)) (snd (fst c)) (snd c)))
            calls [].

Definition studyBuddySession
           (calls : list (string * Catalog * fetchResult QueryData))
  : list Turn :=
  fold_left
    (fun h c => snd (StudyBuddy.callLLM h (fst (fst c)) (snd (fst c)) (snd c)))
    calls [].

Definition ragSession
           (calls : list (string * Catalog * jsval * fetchResult QueryData
                          * fetchResult GeminiData))
  : list Turn :=
  fold_left
    (fun h c =>
       match c with
       | (msg, ctx, key, net1, net2) =>
           snd (StudyBuddyRag.callLLM h msg ctx key net1 net2)
       end)
    calls [].

(** The first tier of the RAG variant fails: the request is rejected, the
    response is not ok, or its body does not parse. *)
Definition ragTierFails (net : fetchResult QueryData) : bool :=
  match net with
  | HttpResponse status _ (Some _) => negb (ok status)
  | _ => true
  end.

Definition localLocation : LlmRequest.Location :=
  LlmRequest.mkLocation "localhost" "http://localhost:8000/".

Definition hostedLocation : LlmRequest.Location :=
  LlmRequest.mkLocation "syllabus-finder.vercel.app"
                        "https://syllabus-finder.vercel.app/".

(* ================================================================== *)
(** ** The grouping inside [createTopicResults] *)

(** The object [grouped] that the [reduce] of [createTopicResults]
    builds, as the list of its entries. *)
Definition groupTopics (topics : list TopicMatch) : list (string * TopicGroup) :=
  fold_left (fun acc t => addToGroup t acc) topics [].

(** The hits that fall under the key [k]. *)
Definition hitsOfKey (k : string) (topics : list TopicMatch) : list TopicMatch :=
  filter (fun t => String.eqb k (groupKey t)) topics.

Definition demoHits : list TopicMatch :=
  [mkTopicMatch "Deep Learning" "21AIC401T" 3 "Training Networks"
                "Backpropagation";
   mkTopicMatch "Machine Learning" "21AIC301T" 1 "Supervised Learning"
                "Linear Regression";
   mkTopicMatch "Deep Learning" "21AIC401T" 3 "Training Networks"
                "Regularization"].

(** What the entries say about the hits handled so far. *)
Definition groupedOf (acc : list (string * TopicGroup))
           (ts : list TopicMatch) : Prop :=
  NoDup (map fst acc)
  /\ (forall k g, In (k, g) acc ->
                  grTopics g = map tmTopic (hitsOfKey k ts)
                  /\ grTopics g <> [])
  /\ (forall t, In t ts -> In (groupKey t) (map fst acc)).

(* ================================================================== *)
(** ** The serverless handlers

    A handler answers with a status and a JSON body ([res.status(n)
    .json(...)]) or with no body ([res.status(n).end()]).  The upstream
    service is an input, like the network of the client. *)

Inductive Payload (D : Type) : Type :=
| PError (message : string)     (* the object with the property [error] *)
| PData (data : D)              (* a body with data for the client       *)
| PEnd.                         (* no body                               *)

Arguments PError {D} message.
Arguments PData {D} data.
Arguments PEnd {D}.

Record Reply (D : Type) : Type := mkReply {
  replyStatus : N;
  replyPayload : Payload D
}.

Arguments mkReply {D} replyStatus replyPayload.
Arguments replyStatus {D} r.
Arguments replyPayload {D} r.

(** [req.body], as far as it is read: [messages] and [model]. *)
Record ApiBody (M : Type) : Type := mkApiBody {
  bodyMessages : M;
  bodyModel : jsval
}.

Arguments mkApiBody {M} bodyMessages bodyModel.
Arguments bodyMessages {M} a.
Arguments bodyModel {M} a.

(** [req]: its method and its body, absent when none was sent. *)
Record ApiRequest (M : Type) : Type := mkApiRequest {
  reqMethod : string;
  reqBody : option (ApiBody M)
}.

Arguments mkApiRequest {M} reqMethod reqBody.
Arguments reqMethod {M} a.
Arguments reqBody {M} a.

(** The answer of the [catch] blocks. *)
Definition internalError {D : Type} : Reply D :=
  mkReply 500 (PError "Internal server error").

(** The part shared by the handlers: forward the upstream answer.  A
    response that is not ok is passed on with its status and its text;
    a rejected promise ends in the [catch]. *)
Definition forward {D : Type} (upstream : fetchResult D) : Reply D :=
  match upstream with
  | FetchRejected => internalError
  | HttpResponse status text json =>
      if negb (ok status) then
        match text with
        | Some errorText => mkReply status (PError errorText)
        | None => internalError
        end
      else
        match json with
        | Some data => mkReply 200 (PData data)
        | None => internalError
        end
  end.

Module ApiChat.

(** src/api/chat.js, [handler]; [apiKey] is
    [process.env.OPENROUTER_API_KEY]. *)
Definition handler {M D : Type} (apiKey : jsval) (req : ApiRequest M)
           (upstream : fetchResult D) : Reply D :=
  if negb (String.eqb (reqMethod req) "POST") then
    mkReply 405 (PError "Method not allowed")
  else if negb (truthy apiKey) then
    mkReply 500 (PError "API key not configured")
  else
    match reqBody req with
    | None => internalError
    | Some _ => forward upstream
    end.

End ApiChat.

Module ApiChatGemini.

(** The handler of the variant that prefers Gemini.  Its answer on the
    Gemini path is a body of the shape of a chat completion with one
    choice; it is given by what the client reads of it. *)
Definition geminiAnswer (upstream : fetchResult GeminiData) : Reply ChatData :=
  match upstream with
  | FetchRejected => internalError
  | HttpResponse status text json =>
      if negb (ok status) then
        match text with
        | Some errorText => mkReply status (PError errorText)
        | None => internalError
        end
      else
        match json with
        | Some data =>
            let text :=
              if truthy (candidateText data) then toStr (candidateText data)
              else "No response generated" in
            mkReply 200 (PData (mkChatData false (JStr text)))
        | None => internalError
        end
  end.

(** [messages] is absent when the body has no array of that name: the
    call [messages.map] of the Gemini path then throws. *)
Definition handler {M : Type} (openRouterKey geminiKey : jsval)
           (req : ApiRequest (option M))
           (gemini : fetchResult GeminiData)
           (openRouter : fetchResult ChatData) : Reply ChatData :=
  if String.eqb (reqMethod req) "OPTIONS" then mkReply 200 PEnd
  else if negb (String.eqb (reqMethod req) "POST") then
    mkReply 405 (PError "Method not allowed")
  else if negb (truthy openRouterKey) && negb (truthy geminiKey) then
    mkReply 500 (PError "No API key configured")
  else
    match reqBody req with
    | None => internalError
    | Some b =>
        if truthy geminiKey then
          match bodyMessages b with
          | None => internalError
          | Some _ => geminiAnswer gemini
          end
        else forward openRouter
    end.

End ApiChatGemini.

(** What the client of src/llm.js gets from [fetch] when a handler has
    answered: the status, the body as text (by [stringify]), and the body
    as the client reads it; an error body has the property [error] and no
    choices. *)
Definition viaProxy (stringify : Payload ChatData -> string)
           (r : Reply ChatData) : fetchResult ChatData :=
  HttpResponse (replyStatus r) (Some (stringify (replyPayload r)))
               (match replyPayload r with
                | PData data => Some data
                | PError message =>
                    Some (mkChatData (LlmRequest.nonEmpty message) JUndefined)
                | PEnd => None
                end).

(** The request of the client of src/llm.js: a POST with a body. *)
Definition clientPost {M : Type} (messages : M) (model : string)
  : ApiRequest M :=
  mkApiRequest "POST" (Some (mkApiBody messages (JStr model))).

(* ================================================================== *)
(** ** The handler that asks Gemini through its SDK

    The file with [handler], [getSyllabusContext] and
    [extractSubjectFromPDF].  A call of [ai.models.generateContent]
    either throws, with a message, or returns a response whose [text] is
    read. *)

Inductive sdkResult : Type :=
| SdkThrows (message : string)
| SdkResponse (text : jsval).

(** A value as [JSON.parse] returns it; a number is a double. *)
#[warnings="-register-all"] Inductive json : Type :=
| JsonNull
| JsonBool (b : bool)
| JsonNumber (x : SpecFloat.spec_float)
| JsonString (s : string)
| JsonArray (items : list json)
| JsonObject (members : list (string * json)).

(** Truthiness: [null], [false], the zeros, [NaN] and the empty string
    are falsy; every array and every object is truthy. *)
Definition jsonTruthy (v : json) : bool :=
  match v with
  | JsonNull => false
  | JsonBool b => b
  | JsonNumber (SpecFloat.S754_zero _) => false
  | JsonNumber SpecFloat.S754_nan => false
  | JsonNumber _ => true
  | JsonString EmptyString => false
  | JsonString _ => true
  | JsonArray _ => true
  | JsonObject _ => true
  end.

(** [s.slice(n)], [s.slice(0, -n)] and [s.endsWith(suffix)] *)
Fixpoint dropFirst (n : nat) (s : string) : string :=
  match n, s with
  | S n', String _ s' => dropFirst n' s'
  | _, _ => s
  end.

Definition dropLast (n : nat) (s : string) : string :=
  firstChars (length s - n) s.

Definition endsWith (s suffix : string) : bool :=
  (length suffix <=? length s)%nat
  && String.eqb (dropFirst (length s - length suffix) s) suffix.

Module ApiGemini.

Definition fence : string := "```".
Definition fenceJson : string := "```json".

(** The three [if]s of [extractSubjectFromPDF] on the trimmed text. *)
Definition stripFences (text : string) : string :=
  let content := trim text in
  let content :=
    if startsWith content fenceJson then dropFirst 7 content else content in
  let content :=
    if startsWith content fence then dropFirst 3 content else content in
  if endsWith content fence then dropLast 3 content else content.

(** [extractSubjectFromPDF]; [parse] is [JSON.parse], [None] when it
    throws; the result [None] is [null]. *)
Definition extractSubjectFromPDF {J : Type} (parse : string -> option J)
           (sdk : sdkResult) : option J :=
  match sdk with
  | SdkResponse (JStr text) => parse (stripFences text)
  | _ => None
  end.

(** What reading and parsing ./data/syllabus.json gives: the import,
    the read or [JSON.parse] throws, or [JSON.parse] returns a value. *)
Inductive fileResult : Type :=
| FileThrows
| FileParsed (v : json).

(** [{ subjects: [] }] *)
Definition emptyCatalog : json :=
  JsonObject [("subjects", JsonArray [])].

(** [getSyllabusContext]; the argument is the variable [syllabusCache]
    ([null] when the module is loaded), the result is its new value,
    which is also the value returned.  The test [!syllabusCache] is one
    of truthiness. *)
Definition getSyllabusContext (syllabusCache : json) (file : fileResult)
  : json :=
  if jsonTruthy syllabusCache then syllabusCache
  else
    match file with
    | FileParsed v => v
    | FileThrows => emptyCatalog
    end.

(** [req.body], as far as it is read. *)
Record Body : Type := mkBody { query : jsval; searchSubject : jsval }.

(** The data of the two answers with status 200. *)
Inductive Answer (J : Type) : Type :=
| SubjectAnswer (subject : option J)          (* { subject } *)
| ChatAnswer (response : jsval).              (* { response, foundInCache: true } *)

Arguments SubjectAnswer {J} subject.
Arguments ChatAnswer {J} response.

(** [handler]: the reply, [None] when the handler throws, and the new
    value of [syllabusCache]. *)
Definition handler {J : Type} (parse : string -> option J)
           (syllabusCache : json)
           (method : string) (body : option Body)
           (file : fileResult) (sdk : sdkResult)
  : option (Reply (Answer J)) * json :=
  if String.eqb method "OPTIONS" then (Some (mkReply 200 PEnd), syllabusCache)
  else if negb (String.eqb method "POST") then
    (Some (mkReply 405 (PError "Method not allowed")), syllabusCache)
  else
    match body with
    | None => (None, syllabusCache)
    | Some b =>
        if negb (truthy (query b)) && negb (truthy (searchSubject b)) then
          (Some (mkReply 400 (PError "Query or searchSubject required")),
           syllabusCache)
        else if truthy (searchSubject b) then
          (Some (mkReply 200 (PData (SubjectAnswer
                                       (extractSubjectFromPDF parse sdk)))),
           syllabusCache)
        else
          let cache := getSyllabusContext syllabusCache file in
          match sdk with
          | SdkThrows message => (Some (mkReply 500 (PError message)), cache)
          | SdkResponse text =>
              (Some (mkReply 200 (PData (ChatAnswer text))), cache)
          end
    end.

End ApiGemini.

Definition fencedExample : string :=
  "```json" ++ nl ++ "{}" ++ nl ++ "```".

(** A string of white space only. *)
Definition blank (s : string) : bool :=
  forallb isSpace (list_ascii_of_string s).

(* ================================================================== *)
(** ** The page of the chat front end

    The state the front end keeps: the variable [isLoading], the value
    of the input field, the [disabled] flag of the send button, the
    children of the element [messages], and the callbacks handed to
    [setTimeout] that have not run yet (each is a call of [processQuery]
    on a message). *)

Inductive Node : Type :=
| MessageNode (type : string) (content : botResponse)
| TypingNode.

Record Page : Type := mkPage {
  isLoading : bool;
  inputValue : string;
  sendDisabled : bool;
  children : list Node;
  timers : list string
}.

(** [addMessage]: a message node of the given type is appended; a string
    becomes its markup, an element its child. *)
Definition addMessage (content : botResponse) (type : string) (p : Page)
  : Page :=
  mkPage (isLoading p) (inputValue p) (sendDisabled p)
         (children p ++ [MessageNode type content])%list (timers p).

(** [showTyping] *)
Definition showTyping (p : Page) : Page :=
  mkPage true (inputValue p) true (children p ++ [TypingNode])%list (timers p).

(** What the browser makes of the markup of a message is not in the
    sources.  [inert content] says of the content of a message that, in
    the page, it holds no element with the id [typing-indicator] and
    runs no script of its own; it is a parameter of the model.  (Text
    without an opening angle bracket is inert: set as [innerHTML] it
    creates no element.  The buttons of an answer call [askQuestion]
    when they are clicked, which is the event [EvAsk] below.)  The
    model follows the page as long as its messages are
    inert and ends, with [None], where one is not: [getElementById] may
    then find an element of that message instead of the indicator, and
    a script may do to the page what it likes. *)
Definition inertNode (inert : botResponse -> bool) (n : Node) : bool :=
  match n with
  | MessageNode _ content => inert content
  | TypingNode => true
  end.

(** [getElementById('typing-indicator')], then [remove]: the first
    element with that id in document order goes, if there is one.  In
    front of a message that is not inert the search is not followed. *)
Fixpoint removeTyping (inert : botResponse -> bool) (l : list Node)
  : option (list Node) :=
  match l with
  | [] => Some []
  | TypingNode :: l' => Some l'
  | MessageNode type content :: l' =>
      if inert content then
        match removeTyping inert l' with
        | Some r => Some (MessageNode type content :: r)
        | None => None
        end
      else None
  end.

(** [hideTyping] *)
Definition hideTyping (inert : botResponse -> bool) (p : Page)
  : option Page :=
  match removeTyping inert (children p) with
  | Some l => Some (mkPage false (inputValue p) false l (timers p))
  | None => None
  end.

(** [sendMessage] *)
Definition sendMessage (p : Page) : Page :=
  let message := trim (inputValue p) in
  match message with
  | EmptyString => p
  | String _ _ =>
      if isLoading p then p
      else
        let p := addMessage (RString message) "user" p in
        let p := mkPage (isLoading p) EmptyString (sendDisabled p)
                        (children p) (timers p) in
        let p := showTyping p in
        mkPage (isLoading p) (inputValue p) (sendDisabled p) (children p)
               (timers p ++ [message])%list
  end.

(** [handleKeyPress] *)
Definition handleKeyPress (key : string) (p : Page) : Page :=
  if String.eqb key "Enter" && negb (isLoading p) then sendMessage p else p.

(** [askQuestion] *)
Definition askQuestion (question : string) (p : Page) : Page :=
  sendMessage (mkPage (isLoading p) question (sendDisabled p) (children p)
                      (timers p)).

(** The end of [processQuery]: [hideTyping], then [addMessage] of the
    response as a bot message. *)
Definition showResponse (inert : botResponse -> bool) (r : botResponse)
           (p : Page) : option Page :=
  match hideTyping inert p with
  | Some p' => Some (addMessage r "bot" p')
  | None => None
  end.

(** The page, as long as every message in it is inert. *)
Definition within (inert : botResponse -> bool) (p : Page) : option Page :=
  if forallb (inertNode inert) (children p) then Some p else None.

(** What can happen to the page. *)
Inductive Event : Type :=
| EvType (text : string)          (* the user edits the input field   *)
| EvKey (key : string)            (* a key press in the input field   *)
| EvSend                          (* a call of [sendMessage]          *)
| EvAsk (question : string)       (* a suggestion button is clicked   *)
| EvTimer.                        (* the oldest pending callback runs *)

Definition step (inert : botResponse -> bool) (d : DataModule) (p : Page)
           (e : Event) : option Page :=
  match e with
  | EvType text =>
      Some (mkPage (isLoading p) text (sendDisabled p) (children p)
                   (timers p))
  | EvKey key => within inert (handleKeyPress key p)
  | EvSend => within inert (sendMessage p)
  | EvAsk question => within inert (askQuestion question p)
  | EvTimer =>
      match timers p with
      | [] => Some p
      | message :: rest =>
          match showResponse inert (processQuery d message)
                             (mkPage (isLoading p) (inputValue p)
                                     (sendDisabled p) (children p) rest) with
          | Some p' => within inert p'
          | None => None
          end
      end
  end.











(* ================================================================== *)
(** ** Notions for the properties of the matcher *)

(** The loop of a repetition inside [rmatch], by itself. *)
Definition repLoop (ic greedy : bool) (a : regex)
           (k : mstate -> option mstate)
  : nat -> nat -> mstate -> option mstate :=
  fix loop (fuel : nat) (min : nat) (st : mstate) {struct fuel}
    : option mstate :=
    match fuel with
    | O => match min with O => k st | S _ => None end
    | S fuel' =>
        let again (_ : unit) :=
          rmatch ic a st
            (fun st' =>
               if (length (rest st') <? length (rest st))%nat
               then loop fuel' (Nat.pred min) st'
               else None) in
        match min with
        | S _ => again tt
        | O =>
            if greedy
            then match again tt with
                 | Some m => Some m
                 | None => k st
                 end
            else match k st with
                 | Some m => Some m
                 | None => again tt
                 end
        end
    end.

(** The character [c] occurs neither in the input still to read nor in
    a capture. *)
Definition stateLacks (c : ascii) (st : mstate) : Prop :=
  lacks c (rest st) = true
  /\ forall i v, In (i, v) (caps st) -> lacks c v = true.

(** The character [c] occurs in no literal piece of a replacement. *)
Definition templateLacks (c : ascii) (t : list tpiece) : bool :=
  forallb (fun p => match p with TLit s => lacks c s | _ => true end) t.

(** The characters of the tags the renderer writes. *)
Definition tagAlphabet : string := "<>/ph234strongemcodebuli".

(** No line terminator in [s]: every character is matched by the dot. *)
Definition dotty (s : string) : bool :=
  forallb (fun c => negb (isLineTerminator c)) (list_ascii_of_string s).

(** The last character of [String c s]. *)
Fixpoint lastOf (c : ascii) (s : string) : ascii :=
  match s with
  | EmptyString => c
  | String b s' => lastOf b s'
  end.

(** A piece of text without the signs the renderer reacts to and
    without an opening angle bracket. *)
Definition plainPiece (s : string) : bool :=
  lacks "#" s && lacks "*" s && lacks "096" s && lacks "010" s
  && lacks "-" s && lacks "<" s.

(** The line separators U+2028 and U+2029 in UTF-8. *)
Definition lineSeparator : string :=
  String "226"%char (String "128"%char (String "168"%char EmptyString)).
Definition paragraphSeparator : string :=
  String "226"%char (String "128"%char (String "169"%char EmptyString)).

(** A text that the dot of a JS expression matches from end to end: no
    line feed, carriage return, U+2028 or U+2029 in it. *)
Definition oneLine (s : string) : bool :=
  lacks "010" s && lacks "013" s
  && negb (includes s lineSeparator) && negb (includes s paragraphSeparator).

(* ================================================================== *)
(** * Properties *)

(** ** Strings *)

Lemma append_nonempty_l (a b : string) :
  a <> EmptyString -> a ++ b <> EmptyString.
Proof. destruct a; [congruence | discriminate]. Qed.

Lemma head_nonempty (c : ascii) (a b : string) :
  String c a ++ b <> EmptyString.
Proof. discriminate. Qed.

Lemma startsWith_refl_app (b c : string) : startsWith (b ++ c) b = true.
Proof.
  induction b as [|x b IH]; [reflexivity|].
  simpl. now rewrite Ascii.eqb_refl.
Qed.

Lemma startsWith_app_same (k x y : string) :
  startsWith x y = true -> startsWith (k ++ x) (k ++ y) = true.
Proof.
  intros H. induction k as [|c k IH]; [exact H|].
  simpl. now rewrite Ascii.eqb_refl.
Qed.

Lemma includes_of_startsWith (s b : string) :
  startsWith s b = true -> includes s b = true.
Proof. intros H. destruct s; simpl in *; now rewrite H. Qed.

Lemma includes_app_r (a t b : string) :
  includes t b = true -> includes (a ++ t) b = true.
Proof.
  intros H. induction a as [|x a IH]; [exact H|].
  simpl. rewrite IH. apply orb_true_r.
Qed.

Lemma includes_false_inv (c : ascii) (s lit : string) :
  includes (String c s) lit = false ->
  startsWith (String c s) lit = false /\ includes s lit = false.
Proof. simpl. intros H. now apply orb_false_iff in H. Qed.

Lemma includes_false_head (s lit : string) :
  includes s lit = false -> startsWith s lit = false.
Proof.
  destruct s; simpl; intros H; apply orb_false_iff in H; tauto.
Qed.

(** ** History ring *)

Lemma addToHistory_skipn (h : list Turn) (r : Role) (c : string) :
  List.length h <= MAX_HISTORY ->
  addToHistory h r c
  = skipn (List.length h + 1 - MAX_HISTORY) (h ++ [mkTurn r c])%list
  /\ List.length (addToHistory h r c) <= MAX_HISTORY.
Proof.
  intros Hlen. unfold addToHistory. cbv zeta.
  rewrite length_app. cbn [List.length]. unfold MAX_HISTORY in *.
  destruct (Nat.ltb_spec 10 (List.length h + 1)) as [Hgt|Hle].
  - assert (E : List.length h + 1 - 10 = 1) by lia. rewrite E.
    split; [reflexivity|].
    destruct h as [|t h]; cbn in *; [lia|].
    rewrite length_app. cbn. lia.
  - assert (E : List.length h + 1 - 10 = 0) by lia. rewrite E.
    split; [reflexivity|]. rewrite length_app. cbn. lia.
Qed.

Lemma appendAll_skipn (ts h : list Turn) :
  List.length h <= MAX_HISTORY ->
  appendAll h ts
  = skipn (List.length (h ++ ts)%list - MAX_HISTORY) (h ++ ts)%list
  /\ List.length (appendAll h ts) <= MAX_HISTORY.
Proof.
  revert h. induction ts as [|t ts IH]; intros h Hlen.
  - cbn. rewrite app_nil_r.
    replace (List.length h - MAX_HISTORY) with 0 by lia. now split.
  - destruct t as [r c].
    destruct (addToHistory_skipn h r c Hlen) as [E Hb].
    change (appendAll h (mkTurn r c :: ts))
      with (appendAll (addToHistory h r c) ts).
    destruct (IH _ Hb) as [E' Hb']. split; [|exact Hb'].
    rewrite E'. rewrite E at 2. rewrite E at 1.
    set (d := List.length h + 1 - MAX_HISTORY).
    assert (Hd : d <= List.length (h ++ [mkTurn r c])%list)
      by (rewrite length_app; cbn; lia).
    assert (Happ : (skipn d (h ++ [mkTurn r c]) ++ ts
                    = skipn d (h ++ mkTurn r c :: ts))%list).
    { replace (h ++ mkTurn r c :: ts)%list
        with ((h ++ [mkTurn r c]) ++ ts)%list
        by (rewrite <- app_assoc; reflexivity).
      rewrite (skipn_app d (h ++ [mkTurn r c])%list ts).
      replace (d - List.length (h ++ [mkTurn r c])%list) with 0 by lia.
      reflexivity. }
    rewrite Happ. rewrite skipn_skipn. f_equal.
    rewrite length_skipn, !length_app. cbn [List.length].
    unfold d, MAX_HISTORY in *. lia.
Qed.

(** C2.  Starting from the empty history, after any sequence of calls of
    [addToHistory] the history has at most [MAX_HISTORY] = 10 turns and
    is the sequence of appended turns without its oldest ones; after
    10 + k calls it is the last 10 appended turns, in their order. *)
Theorem history_ring_fifo :
  forall ts : list Turn,
    List.length (appendAll [] ts) <= MAX_HISTORY
    /\ appendAll [] ts = skipn (List.length ts - MAX_HISTORY) ts
    /\ (forall k, List.length ts = MAX_HISTORY + k ->
                  appendAll [] ts = skipn k ts
                  /\ List.length (appendAll [] ts) = MAX_HISTORY).
Proof.
  intros ts.
  destruct (appendAll_skipn ts [] (Nat.le_0_l _)) as [E Hb].
  cbn [app] in E. repeat split; try assumption.
  - rewrite E. f_equal. lia.
  - rewrite E, length_skipn. lia.
Qed.

Lemma history_ring_fifo_witness :
  List.length twelveTurns = MAX_HISTORY + 2
  /\ appendAll [] twelveTurns = skipn 2 twelveTurns
  /\ List.length (appendAll [] twelveTurns) = MAX_HISTORY.
Proof.
  split; [reflexivity|].
  exact (proj2 (proj2 (history_ring_fifo twelveTurns)) 2 eq_refl).
Defined.

(** ** The local responder always answers *)

Lemma fold_unitBlock_head (l : list Unit) (c : ascii) (a : string) :
  exists tl, fold_left unitBlock l (String c a) = String c tl.
Proof.
  revert a. induction l as [|u l IH]; intros a.
  - now exists a.
  - cbn [fold_left]. unfold unitBlock at 2. cbn [append]. apply IH.
Qed.

Lemma subjectDump_head (s : Subject) :
  exists tl, subjectDump s = String "*" tl.
Proof. unfold subjectDump. cbn [append]. apply fold_unitBlock_head. Qed.

Lemma searchSubjects_head (q : string) (l : list Subject) (r : string) :
  searchSubjects q l = Some r -> exists tl, r = String "*" tl.
Proof.
  induction l as [|s l IH]; cbn; [discriminate|].
  destruct (nameMatches q s); [|exact IH].
  intros H. injection H as <-. apply subjectDump_head.
Qed.

Lemma generateLocalResponse_head (query : string) (cat : Catalog) :
  exists c tl, generateLocalResponse query cat = String c tl
               /\ (c = "*"%char \/ c = "I"%char).
Proof.
  unfold generateLocalResponse. cbv zeta.
  destruct (searchSubjects _ _) as [r|] eqn:E.
  - destruct (searchSubjects_head _ _ _ E) as [tl ->].
    exists "*"%char, tl. auto.
  - unfold subjectListing. cbn [append]. eexists _, _. split; [reflexivity|auto].
Qed.

Lemma processQuery_nonempty (d : DataModule) (query : string) :
  responseText (processQuery d query) <> EmptyString.
Proof.
  unfold processQuery. cbv zeta.
  repeat match goal with
         | |- context [if ?b then _ else _] => destruct b
         | |- context [match ?x with _ => _ end] => destruct x
         end;
    cbn [responseText];
    try (unfold createSubjectsList, createSyllabusCard, createUnitCard,
           createTopicResults, unitNotFound, subjectNotIdentified,
           subjectNotFound, topicNotFound, notSure; cbv zeta;
         first [apply head_nonempty | discriminate]).
Qed.

(** C1.  For every query (the empty one too) and every catalog (with a
    list of subjects, an empty list, or none) the local responder
    [generateLocalResponse] returns a string that is not empty; the
    function is total, no step of it can fail.  Without a list of
    subjects the answer is the listing over no subject.  The local path
    of the front end, [processQuery], answers every query with markup
    that is not empty as well, whatever the data module. *)
Theorem generateLocalResponse_nonempty :
  forall (query : string) (syllabusData : Catalog),
    generateLocalResponse query syllabusData <> EmptyString
    /\ generateLocalResponse query (mkCatalog None) = subjectListing []
    /\ (forall d : DataModule,
          responseText (processQuery d query) <> EmptyString).
Proof.
  intros query cat. split; [|split].
  - destruct (generateLocalResponse_head query cat) as (c & tl & -> & _).
    discriminate.
  - reflexivity.
  - intros d. apply processQuery_nonempty.
Qed.

(** ** The renderer *)

Lemma replaceFrom_nonempty (ic : bool) (r : regex) (t : list tpiece)
      (pv : option ascii) (s : string) :
  (forall w m, expand t w m <> EmptyString) ->
  s <> EmptyString -> replaceFrom ic r t pv s 0 <> EmptyString.
Proof.
  intros Ht Hs. destruct s as [|c s]; [congruence|].
  cbn [replaceFrom]. destruct (rexec ic r pv (String c s)) as [m|].
  - apply append_nonempty_l, Ht.
  - discriminate.
Qed.

Lemma formatWith_some (marks : list string) (c : ascii) (s : string) :
  exists html, Render.formatWith marks (JStr (String c s)) = Some html
               /\ html <> EmptyString.
Proof.
  unfold Render.formatWith. cbn [truthy negb toStr].
  eexists. split; [reflexivity|].
  apply replaceFrom_nonempty; [intros; discriminate|].
  generalize (Render.inlineMarkup (String c s)). intros body.
  assert (H : Render.wrap body <> EmptyString) by discriminate.
  revert H. generalize (Render.wrap body). clear.
  induction marks as [|mk marks IH]; intros html H; [exact H|].
  cbn [fold_left]. apply IH.
  apply replaceFrom_nonempty; [intros; discriminate|exact H].
Qed.

(** C10.  [formatLLMResponse] returns [null] for [null], [undefined] and
    the empty string, and for every string that is not empty it returns
    markup, a string that is not empty; so in src/llm.js and in the Study
    Buddy variant. *)
Theorem formatLLMResponse_null_iff_falsy :
  (Llm.formatLLMResponse JNull = None
   /\ Llm.formatLLMResponse JUndefined = None
   /\ Llm.formatLLMResponse (JStr EmptyString) = None
   /\ forall c s, exists html,
        Llm.formatLLMResponse (JStr (String c s)) = Some html
        /\ html <> EmptyString)
  /\ (StudyBuddy.formatLLMResponse JNull = None
      /\ StudyBuddy.formatLLMResponse JUndefined = None
      /\ StudyBuddy.formatLLMResponse (JStr EmptyString) = None
      /\ forall c s, exists html,
           StudyBuddy.formatLLMResponse (JStr (String c s)) = Some html
           /\ html <> EmptyString).
Proof.
  split; (repeat split; try reflexivity); intros c s; apply formatWith_some.
Qed.

(** C5.  On the text of two dash lines the renderer of src/llm.js, and
    the Study Buddy one, makes a list of the first line only: the second
    line stays text after a line break, outside the list, and the
    paragraph is closed without having been opened.  A line with a bullet
    sign is no list item in src/llm.js. *)
Theorem formatLLMResponse_second_item_lost :
  Llm.formatLLMResponse (JStr ("- a" ++ nl ++ "- b"))
  = Some "<ul><li>a</li></ul><br>- b</p>"
  /\ StudyBuddy.formatLLMResponse (JStr ("- a" ++ nl ++ "- b"))
     = Some "<ul><li>a</li></ul><br>- b</p>"
  /\ Llm.formatLLMResponse (JStr ("- a" ++ nl ++ "- b"))
     <> Some "<ul><li>a</li><li>b</li></ul>"
  /\ Llm.formatLLMResponse (JStr (Render.bullet ++ " a"))
     = Some ("<p>" ++ Render.bullet ++ " a</p>").
Proof.
  repeat split; try (vm_compute; reflexivity).
  vm_compute. discriminate.
Qed.

(** ** The front end *)

Lemma processQuery_topic_branch (d : DataModule) (query : string) :
  let q := toLowerCase query in
  includes q "list" && (includes q "subject" || includes q "all") = false ->
  includes q "unit" = false ->
  includes q "syllabus" || includes q "what is"
    || includes q "show me" || includes q "tell me about" = false ->
  includes q "topic" || includes q "where" || includes q "find" = true ->
  processQuery d query
  = match searchTopics d (topicFragment q) with
    | _ :: _ => RString (createTopicResults (searchTopics d (topicFragment q)))
    | [] => RString topicNotFound
    end.
Proof.
  intros q H1 H2 H3 H4. unfold processQuery. cbv zeta. fold q.
  rewrite H1, H2, H3, H4. reflexivity.
Qed.

(** C6.  For the query [find linear regression] the fragment handed to
    the topic search is [lear regression]: the pattern removes [in] from
    inside [linear].  Whatever the data module, the search is made with
    that fragment; over the example catalog, which has the topic
    [Linear Regression], nothing is found. *)
Theorem topicFragment_cuts_inside_words :
  topicFragment (toLowerCase "find linear regression") = "lear regression"
  /\ (forall d : DataModule,
        processQuery d "find linear regression"
        = match searchTopics d "lear regression" with
          | _ :: _ =>
              RString (createTopicResults (searchTopics d "lear regression"))
          | [] => RString topicNotFound
          end)
  /\ processQuery demoData "find linear regression" = RString topicNotFound
  /\ searchTopics demoData "linear regression"
     = [mkTopicMatch "Machine Learning" "21AIC301T" 1 "Supervised Learning"
                     "Linear Regression"].
Proof.
  assert (E : topicFragment (toLowerCase "find linear regression")
              = "lear regression") by (vm_compute; reflexivity).
  split; [exact E|]. split; [|split].
  - intros d.
    rewrite processQuery_topic_branch by (vm_compute; reflexivity).
    cbv zeta. rewrite E. reflexivity.
  - vm_compute. reflexivity.
  - vm_compute. reflexivity.
Qed.

(** ** The calls and the history *)

Lemma Llm_callLLM_history (h : list Turn) (msg : string) (ctx : Catalog)
      (net : fetchResult ChatData) :
  snd (Llm.callLLM h msg ctx net) = historyAfter h msg (chatReply net).
Proof.
  unfold Llm.callLLM, chatReply, historyAfter. cbv zeta.
  destruct net as [|status text json]; [reflexivity|].
  destruct (ok status); cbn [negb andb].
  - destruct json as [data|]; [|reflexivity].
    destruct (error data); cbn [negb andb]; [reflexivity|].
    destruct (truthy (choiceContent data)); reflexivity.
  - destruct text, json, (status =? 429)%N; reflexivity.
Qed.

Lemma Rag_callLLM_history (h : list Turn) (msg : string) (ctx : Catalog)
      (key : jsval)
      (net1 : fetchResult QueryData) (net2 : fetchResult GeminiData) :
  snd (StudyBuddyRag.callLLM h msg ctx key net1 net2)
  = historyAfter h msg (ragReply net1).
Proof.
  unfold StudyBuddyRag.callLLM, ragReply, historyAfter. cbv zeta.
  destruct net1 as [|status text json]; [reflexivity|].
  destruct (ok status); cbn [andb]; [|destruct json; reflexivity].
  destruct json as [data|]; [|reflexivity].
  destruct (truthy (response data)), (sources data) as [[|s ss]|]; reflexivity.
Qed.

Lemma StudyBuddy_callLLM_history (h : list Turn) (msg : string)
      (ctx : Catalog) (net : fetchResult QueryData) :
  snd (StudyBuddy.callLLM h msg ctx net) = historyAfter h msg (ragReply net).
Proof.
  unfold StudyBuddy.callLLM, ragReply, historyAfter. cbv zeta.
  destruct net as [|status text json]; [reflexivity|].
  destruct (ok status); cbn [negb andb]; [|destruct json; reflexivity].
  destruct json as [data|]; [|reflexivity].
  destruct (truthy (response data)), (sources data) as [[|s ss]|]; reflexivity.
Qed.

(** C7, as the code has it.  [callLLM], in src/llm.js and in the two
    Study Buddy variants, appends the user turn before the request,
    whatever its outcome; it appends the assistant turn after it exactly
    when the response is ok, its body parses and the reply in it is truthy
    (a string that is not empty). *)
Theorem callLLM_history_effect :
  (forall h msg ctx key net1 net2,
      snd (StudyBuddyRag.callLLM h msg ctx key net1 net2)
      = historyAfter h msg (ragReply net1))
  /\ (forall h msg ctx net,
         snd (Llm.callLLM h msg ctx net) = historyAfter h msg (chatReply net))
  /\ (forall h msg ctx net,
         snd (StudyBuddy.callLLM h msg ctx net)
         = historyAfter h msg (ragReply net)).
Proof.
  split; [|split]; intros.
  - apply Rag_callLLM_history.
  - apply Llm_callLLM_history.
  - apply StudyBuddy_callLLM_history.
Qed.

(** C7, the claim as stated fails: when the first tier fails (the request
    is rejected, or the status is 500) the history is not left as it was,
    it has gained the user turn. *)
Lemma failed_tier_appends_user_turn :
  snd (StudyBuddyRag.callLLM [] "hi" demoCatalog JNull FetchRejected
                                  FetchRejected)
  = [mkTurn user "hi"]
  /\ snd (StudyBuddyRag.callLLM [] "hi" demoCatalog JNull FetchRejected
                                  FetchRejected)
     <> []
  /\ snd (Llm.callLLM [] "hi" demoCatalog (HttpResponse 500 (Some "down") None))
     = [mkTurn user "hi"]
  /\ snd (Llm.callLLM [] "hi" demoCatalog (HttpResponse 500 (Some "down") None)) <> [].
Proof. repeat split; try reflexivity; discriminate. Qed.

(** In src/llm.js a response with status 429 whose text can be read is
    answered with the rate limit notice. *)
Lemma Llm_callLLM_429 (h : list Turn) (msg errorText : string)
      (ctx : Catalog) (json : option ChatData) :
  Llm.callLLM h msg ctx (HttpResponse 429 (Some errorText) json)
  = (Some Llm.rateLimitNotice, addToHistory h user msg).
Proof. reflexivity. Qed.

Lemma generateLocalResponse_not_notice (query : string) (cat : Catalog) :
  generateLocalResponse query cat <> Llm.rateLimitNotice.
Proof.
  destruct (generateLocalResponse_head query cat) as (c & tl & -> & [-> | ->]);
    vm_compute; discriminate.
Qed.

(** C8.  In the Study Buddy variants a response with status 429 is
    handled like every other failure.  The variant with the local
    fallback answers from the local catalog, which is never the rate
    limit notice; the variant with the RAG backend goes on to its second
    tier, which answers a status 429 of its own with its general apology.
    Only src/llm.js returns the notice. *)
Theorem StudyBuddy_429_falls_through :
  (forall h msg ctx text json,
      StudyBuddy.callLLM h msg ctx (HttpResponse 429 text json)
      = (JStr (generateLocalResponse msg ctx), addToHistory h user msg)
      /\ generateLocalResponse msg ctx <> Llm.rateLimitNotice)
  /\ (forall h msg ctx key text json net2,
         StudyBuddyRag.callLLM h msg ctx key (HttpResponse 429 text json) net2
         = (JStr (StudyBuddyRag.fallbackLLMCall msg ctx key net2),
            addToHistory h user msg))
  /\ (forall msg ctx c key text json,
         StudyBuddyRag.fallbackLLMCall msg ctx (JStr (String c key))
                                       (HttpResponse 429 text json)
         = "Sorry, I'm having trouble connecting. Please try again.").
Proof.
  split; [|split].
  - intros. split; [reflexivity|apply generateLocalResponse_not_notice].
  - intros. reflexivity.
  - intros msg ctx c key text [data|]; reflexivity.
Qed.

(** ** The local responder matches subject names only *)

Lemma searchSubjects_first_match (q : string) (l : list Subject) :
  (searchSubjects q l = None
   /\ forallb (fun s => negb (nameMatches q s)) l = true)
  \/ (exists pre s post,
         l = (pre ++ s :: post)%list
         /\ forallb (fun x => negb (nameMatches q x)) pre = true
         /\ nameMatches q s = true
         /\ searchSubjects q l = Some (subjectDump s)).
Proof.
  induction l as [|s l IH]; [left; now split|].
  cbn [searchSubjects forallb].
  destruct (nameMatches q s) eqn:E.
  - right. exists [], s, l. cbn. auto.
  - destruct IH as [[Hn Hall]|(pre & s' & post & -> & Hpre & Hs & Hr)].
    + left. now split.
    + right. exists (s :: pre), s', post. cbn [forallb app].
      rewrite E, Hpre. auto.
Qed.

(** C3, as the code has it.  The local responder does one thing: it looks
    for the first subject, in catalog order, whose lower-cased name
    contains the lower-cased query or is contained in it.  If there is
    one, the answer is the dump of that subject (all its units and
    topics); if there is none, the answer is the listing of the subjects'
    names.  Units and topics play no part in the choice. *)
Theorem generateLocalResponse_by_subject_name :
  forall (query : string) (syllabusData : Catalog),
    let q := toLowerCase query in
    let subs := orEmpty (subjects syllabusData) in
    (forallb (fun s => negb (nameMatches q s)) subs = true
     /\ generateLocalResponse query syllabusData = subjectListing subs)
    \/ (exists pre s post,
           subs = (pre ++ s :: post)%list
           /\ forallb (fun x => negb (nameMatches q x)) pre = true
           /\ nameMatches q s = true
           /\ generateLocalResponse query syllabusData = subjectDump s).
Proof.
  intros query cat q subs. unfold generateLocalResponse. cbv zeta.
  fold q. fold subs.
  destruct (searchSubjects_first_match q subs)
    as [[Hn Hall]|(pre & s & post & E & Hpre & Hs & Hr)].
  - left. rewrite Hn. now split.
  - right. exists pre, s, post. rewrite Hr. auto.
Qed.

(** C3, the claim as stated fails.  Over the example catalog the topic
    search finds [backpropagation] in unit 3 of Deep Learning, yet the
    local responder answers [what is backpropagation] with the listing of
    subject names, which names neither the unit nor the topic.  Nor is
    its answer the one of the local path [processQuery]: to a topic query
    that path answers with the unit of the topic and the local responder
    with the listing; to a unit query that path answers with the one unit
    and the local responder with the whole syllabus of the subject. *)
Lemma local_responder_makes_no_topic_search :
  searchTopics demoData "backpropagation"
  = [mkTopicMatch "Deep Learning" "21AIC401T" 3 "Training Networks"
                  "Backpropagation"]
  /\ generateLocalResponse "what is backpropagation" demoCatalog
     = subjectListing demoSubjects
  /\ includes (generateLocalResponse "what is backpropagation" demoCatalog)
              "Unit 3" = false
  /\ includes (toLowerCase
                 (generateLocalResponse "what is backpropagation" demoCatalog))
              "backpropagation" = false
  /\ (includes (responseText
                  (processQuery demoData "where is the topic backpropagation"))
               "Deep Learning - Unit 3" = true
      /\ generateLocalResponse "where is the topic backpropagation" demoCatalog
         = subjectListing demoSubjects)
  /\ (includes (responseText
                  (processQuery demoData "Show me Deep Learning Unit 3"))
               "Sequence Models" = false
      /\ generateLocalResponse "Show me Deep Learning Unit 3" demoCatalog
         = subjectDump deepLearning
      /\ includes (subjectDump deepLearning) "Unit 5: Sequence Models" = true).
Proof. repeat split; vm_compute; reflexivity. Qed.

(** ** Unit queries *)

Lemma processQuery_unit_branch (d : DataModule) (query : string)
      (subject : Subject) (n : N) :
  let q := toLowerCase query in
  includes q "list" && (includes q "subject" || includes q "all") = false ->
  includes q "unit" = true ->
  findSubjectInQuery d q = Some subject ->
  unitNumber q = Some n ->
  processQuery d query
  = match n with
    | Npos p =>
        match findSubjectUnit d (name subject) (Npos p) with
        | Some (rsubject, Some runit) => RElement (createUnitCard rsubject runit)
        | _ => RString (unitNotFound (Npos p) subject)
        end
    | N0 => RElement (createSyllabusCard subject)
    end.
Proof.
  intros q H1 H2 H3 H4. unfold processQuery. cbv zeta. fold q.
  rewrite H1, H2, H3, H4. reflexivity.
Qed.

Lemma find_hasUnit (subject : Subject) (n : N) :
  hasUnit subject n = false ->
  find (fun u => (number u =? n)%N) (units subject) = None.
Proof.
  unfold hasUnit. induction (units subject) as [|u l IH]; [reflexivity|].
  cbn [existsb find]. intros H. apply orb_false_iff in H as [Hu Hl].
  rewrite Hu. exact (IH Hl).
Qed.

(** Where the lookup by the name of the subject gives that subject, the
    unit branch answers a number the subject does not have with the
    message that states its number of units.  (For n below 2^53, where
    the model of the number is exact; the number 0 is taken for no
    number and gets the syllabus card.) *)
Lemma processQuery_missing_unit (subs : list Subject) (query : string)
      (subject : Subject) (n : N) :
  includes (toLowerCase query) "list"
    && (includes (toLowerCase query) "subject"
        || includes (toLowerCase query) "all") = false ->
  includes (toLowerCase query) "unit" = true ->
  findSubjectInQuery (specData subs) (toLowerCase query) = Some subject ->
  unitNumber (toLowerCase query) = Some n ->
  specFindSubject subs (name subject) = Some subject ->
  hasUnit subject n = false ->
  n <> 0%N ->
  processQuery (specData subs) query
  = RString ("<p>I couldn't find Unit " ++ showNum n ++ " for <strong>"
               ++ name subject ++ "</strong>. This subject has "
               ++ showNum (N.of_nat (List.length (units subject)))
               ++ " units.</p>").
Proof.
  intros H1 H2 H3 H4 Hs Hu Hn.
  rewrite (processQuery_unit_branch (specData subs) query subject n H1 H2 H3 H4).
  destruct n as [|p]; [congruence|].
  cbn [findSubjectUnit specData]. unfold specFindSubjectUnit.
  rewrite Hs, (find_hasUnit subject (Npos p) Hu). reflexivity.
Qed.


(** ** Substitutions that find nothing leave the text as it is *)

Lemma eatLit_startsWith (lit p s : string) (pv : option ascii) :
  startsWith p lit = true -> startsWith s lit = false ->
  eatLit false p pv s = None.
Proof.
  revert p s pv. induction lit as [|a lit IH]; intros p s pv Hp Hs.
  - discriminate.
  - destruct p as [|a' p]; [discriminate|].
    cbn in Hp. apply andb_true_iff in Hp as [Ha Hp].
    apply Ascii.eqb_eq in Ha. subst a'.
    destruct s as [|b s]; [reflexivity|].
    cbn in Hs |- *. destruct (Ascii.eqb a b); [|reflexivity].
    cbn in Hs. now apply IH.
Qed.

Lemma rmatch_seq (ic : bool) (a b : regex) (st : mstate)
      (k : mstate -> option mstate) :
  rmatch ic (RSeq a b) st k = rmatch ic a st (fun st' => rmatch ic b st' k).
Proof. reflexivity. Qed.

Lemma rmatch_startsLit (r : regex) :
  forall (lit : string) (st : mstate) (k : mstate -> option mstate),
    startsLit lit r = true -> startsWith (rest st) lit = false ->
    rmatch false r st k = None.
Proof.
  induction r as [p| | | | | |a IHa b IHb|a IHa b IHb|min g a IHa|i a IHa];
    intros lit st k Hr Hs; cbn [startsLit] in Hr; try discriminate.
  - cbn [rmatch]. now rewrite (eatLit_startsWith lit p (rest st) (prev st)).
  - rewrite rmatch_seq.
    destruct a; try discriminate; try (now apply (IHa lit)).
    cbn [rmatch]. destruct (atBol st); [now apply (IHb lit)|reflexivity].
  - apply andb_true_iff in Hr as [Ha Hb].
    cbn [rmatch]. rewrite (IHa lit st k Ha Hs). now apply (IHb lit).
  - destruct min as [|min]; [discriminate|].
    cbn [rmatch]. now apply (IHa lit).
  - cbn [rmatch]. now apply (IHa lit).
Qed.

Lemma lacks_startsWith (lit s : string) (c : ascii) :
  startsWith s lit = true -> lacks c s = true -> lacks c lit = true.
Proof.
  revert s. induction lit as [|a lit IH]; intros s Hp Hs; [reflexivity|].
  destruct s as [|b s]; [discriminate|].
  cbn in Hp, Hs |- *.
  apply andb_true_iff in Hp as [Ha Hp]. apply andb_true_iff in Hs as [Hb Hs].
  apply Ascii.eqb_eq in Ha. subst b. rewrite Hb. cbn. now apply (IH s).
Qed.

Lemma lacks_includes (c : ascii) (s lit : string) :
  lacks c lit = false -> lacks c s = true -> includes s lit = false.
Proof.
  intros Hl. induction s as [|b s IH]; intros Hs.
  - cbn. destruct (startsWith EmptyString lit) eqn:E; [|reflexivity].
    rewrite (lacks_startsWith lit EmptyString c E Hs) in Hl. discriminate.
  - cbn [includes].
    destruct (startsWith (String b s) lit) eqn:E.
    + rewrite (lacks_startsWith lit _ c E Hs) in Hl. discriminate.
    + cbn in Hs |- *. apply andb_true_iff in Hs as [_ Hs]. now apply IH.
Qed.

Lemma lacks_app (c : ascii) (a b : string) :
  lacks c (a ++ b) = lacks c a && lacks c b.
Proof.
  induction a as [|x a IH]; [reflexivity|].
  cbn. rewrite IH. now rewrite andb_assoc.
Qed.

Section NoMatch.

Variables (r : regex) (t : list tpiece) (lit : string).
Hypothesis Hr : startsLit lit r = true.

Lemma replaceFrom_id (s : string) :
  forall pv : option ascii,
    includes s lit = false -> replaceFrom false r t pv s 0 = s.
Proof.
  induction s as [|c s IH]; intros pv Hs.
  - cbn [replaceFrom]. unfold rexec.
    now rewrite (rmatch_startsLit r lit (MState pv EmptyString []) Some Hr
                                  (includes_false_head _ _ Hs)).
  - cbn [replaceFrom]. unfold rexec.
    rewrite (rmatch_startsLit r lit (MState pv (String c s) []) Some Hr
                              (includes_false_head _ _ Hs)).
    apply includes_false_inv in Hs as [_ Hs]. now rewrite IH.
Qed.

Lemma replaceAll_lacks (c : ascii) (s : string) :
  lacks c lit = false -> lacks c s = true -> replaceAll false r t s = s.
Proof.
  intros Hl Hs. unfold replaceAll.
  apply replaceFrom_id. now apply (lacks_includes c).
Qed.

End NoMatch.

Lemma startsWith_li_app (t : string) :
  startsWith t "<li>" = false -> startsWith (t ++ "</p>") "<li>" = false.
Proof.
  intros H.
  repeat (destruct t as [|? t]; [reflexivity|];
          cbn [startsWith append] in H |- *;
          match goal with
          | |- context [Ascii.eqb ?a ?b] =>
              destruct (Ascii.eqb a b);
              [cbn [andb] in H |- *|reflexivity]
          end).
  discriminate.
Qed.

Lemma includes_li_app (text : string) :
  includes text "<li>" = false -> includes (text ++ "</p>") "<li>" = false.
Proof.
  induction text as [|c text IH]; intros H; [reflexivity|].
  apply includes_false_inv in H as [Hs Hi].
  change (String c text ++ "</p>") with (String c (text ++ "</p>")).
  cbn [includes]. rewrite (IH Hi), orb_false_r.
  exact (startsWith_li_app (String c text) Hs).
Qed.

Lemma includes_li_wrap (text : string) :
  includes text "<li>" = false -> includes (Render.wrap text) "<li>" = false.
Proof.
  intros H. unfold Render.wrap.
  change ("<p>" ++ text ++ "</p>")
    with (String "<" (String "p" (String ">" (text ++ "</p>")))).
  cbn [includes]. rewrite (includes_li_app text H). reflexivity.
Qed.

(** C4, as the code has it.  The renderer escapes nothing.  A text that
    is not empty and has no hash sign, asterisk, backquote, line feed or
    dash and no tag [<li>] in it is returned as it is between [<p>] and
    [</p>]; that holds whatever else the text contains: angle brackets,
    ampersands, quotes, whole tags. *)
Theorem formatLLMResponse_plain_text_verbatim :
  forall text : string,
    plainText text = true ->
    Llm.formatLLMResponse (JStr text) = Some ("<p>" ++ text ++ "</p>").
Proof.
  intros text H. unfold plainText in H.
  repeat (apply andb_true_iff in H as [H ?]).
  apply negb_true_iff in H.
  match goal with Hi : negb (includes _ _) = true |- _ =>
    apply negb_true_iff in Hi end.
  unfold Llm.formatLLMResponse, Render.formatWith.
  destruct text as [|c0 text0] eqn:Etext; [discriminate|].
  rewrite <- Etext in *. cbn [toStr].
  replace (negb (truthy (JStr text))) with false by (subst text; reflexivity).
  assert (Ein : Render.inlineMarkup text = text).
  { unfold Render.inlineMarkup. cbv zeta.
    rewrite (replaceAll_lacks (Render.reHeader "###") _ "### " eq_refl "#" text)
      by (reflexivity || assumption).
    rewrite (replaceAll_lacks (Render.reHeader "##") _ "## " eq_refl "#" text)
      by (reflexivity || assumption).
    rewrite (replaceAll_lacks (Render.reHeader "#") _ "# " eq_refl "#" text)
      by (reflexivity || assumption).
    rewrite (replaceAll_lacks (Render.reDelim "**") _ "**" eq_refl "*" text)
      by (reflexivity || assumption).
    rewrite (replaceAll_lacks (Render.reDelim "*") _ "*" eq_refl "*" text)
      by (reflexivity || assumption).
    rewrite (replaceAll_lacks (Render.reDelim Render.backquote) _
                              Render.backquote eq_refl "096" text)
      by (reflexivity || assumption).
    rewrite (replaceAll_lacks Render.reBlank _ (nl ++ nl) eq_refl "010" text)
      by (reflexivity || assumption).
    now rewrite (replaceAll_lacks Render.reNewline _ nl eq_refl "010" text)
      by (reflexivity || assumption). }
  rewrite Ein. cbn [fold_left].
  assert (Hdash : lacks "-" (Render.wrap text) = true).
  { unfold Render.wrap. rewrite !lacks_app.
    match goal with Hd : lacks "-" text = true |- _ => rewrite Hd end.
    reflexivity. }
  rewrite (replaceAll_lacks (Render.reItem "-") _ "<p>- " eq_refl "-" _)
    by (reflexivity || assumption).
  unfold replaceAll.
  rewrite (replaceFrom_id Render.reItems _ "<li>" eq_refl _ None
                          (includes_li_wrap text ltac:(assumption))).
  reflexivity.
Qed.

Lemma formatLLMResponse_plain_text_verbatim_witness :
  plainText scriptPayload = true
  /\ Llm.formatLLMResponse (JStr scriptPayload)
     = Some ("<p>" ++ scriptPayload ++ "</p>").
Proof.
  split; [reflexivity|].
  apply (formatLLMResponse_plain_text_verbatim scriptPayload). reflexivity.
Defined.

(** C4, the claim as stated fails: the text of a script element comes out
    of the renderer of src/llm.js as that script element, unescaped,
    inside the paragraph. *)
Lemma renderer_emits_raw_script :
  Llm.formatLLMResponse (JStr scriptPayload)
  = Some "<p><script>alert(1)</script></p>"
  /\ option_map (fun html => includes html "<script>")
                (Llm.formatLLMResponse (JStr scriptPayload)) = Some true
  /\ option_map (fun html => includes html "&lt;")
                (Llm.formatLLMResponse (JStr scriptPayload)) = Some false.
Proof. repeat split; vm_compute; reflexivity. Qed.

(* ================================================================== *)
(** * Further properties of the code *)

(** ** The history across calls *)

Lemma addToHistory_ends (h : list Turn) (r : Role) (c : string) :
  exists pre, addToHistory h r c = (pre ++ [mkTurn r c])%list.
Proof.
  unfold addToHistory. cbv zeta.
  destruct (MAX_HISTORY <? List.length (h ++ [mkTurn r c])%list)%nat eqn:E.
  - destruct h as [|t h]; [discriminate|]. now exists h.
  - now exists h.
Qed.

Lemma addToHistory_bound (h : list Turn) (r : Role) (c : string) :
  List.length h <= MAX_HISTORY ->
  List.length (addToHistory h r c) <= MAX_HISTORY.
Proof. intros H. apply (addToHistory_skipn h r c H). Qed.

Lemma historyAfter_bound (h : list Turn) (msg : string) (reply : option string) :
  List.length h <= MAX_HISTORY ->
  List.length (historyAfter h msg reply) <= MAX_HISTORY.
Proof.
  intros H. destruct reply; cbn [historyAfter];
    repeat apply addToHistory_bound; exact H.
Qed.

Lemma fold_left_bound {C : Type} (step : list Turn -> C -> list Turn) :
  (forall h c, List.length h <= MAX_HISTORY ->
               List.length (step h c) <= MAX_HISTORY) ->
  forall (calls : list C) (h : list Turn),
    List.length h <= MAX_HISTORY ->
    List.length (fold_left step calls h) <= MAX_HISTORY.
Proof.
  intros Hstep. induction calls as [|c calls IH]; intros h H; [exact H|].
  cbn [fold_left]. apply IH, Hstep, H.
Qed.

(** X1.  Whatever the messages and whatever the network answers, after
    any run of calls of [callLLM] the history holds at most 10 turns; so
    in src/llm.js and in both Study Buddy variants. *)
Theorem sessions_keep_history_bound :
  (forall calls, List.length (llmSession calls) <= MAX_HISTORY)
  /\ (forall calls, List.length (studyBuddySession calls) <= MAX_HISTORY)
  /\ (forall calls, List.length (ragSession calls) <= MAX_HISTORY).
Proof.
  split; [|split]; intros calls;
    (apply fold_left_bound; [|apply Nat.le_0_l]); intros h c H.
  - rewrite Llm_callLLM_history. now apply historyAfter_bound.
  - rewrite StudyBuddy_callLLM_history. now apply historyAfter_bound.
  - destruct c as [[[[msg ctx] key] net1] net2].
    rewrite Rag_callLLM_history. now apply historyAfter_bound.
Qed.

Lemma sliceLast_app_last {A : Type} (n : nat) (pre : list A) (x : A) :
  exists pre', sliceLast (S n) (pre ++ [x]) = (pre' ++ [x])%list
               /\ List.length pre' <= n.
Proof.
  unfold sliceLast. rewrite length_app. cbn [List.length].
  rewrite skipn_app.
  replace (List.length pre + 1 - S n - List.length pre) with 0 by lia.
  cbn [skipn]. eexists. split; [reflexivity|].
  rewrite length_skipn. lia.
Qed.

(** X2.  The request of the Study Buddy variants carries the user's
    message twice: as [query], and as the last turn of [history].  That
    history holds between one and five turns, the latest turns of the
    conversation with the new user turn at the end, whatever the history
    was before. *)
Theorem queryRequest_window :
  forall (conversationHistory : list Turn) (userMessage : string),
    reqQuery (queryRequest conversationHistory userMessage) = userMessage
    /\ (exists pre,
           reqHistory (queryRequest conversationHistory userMessage)
           = (pre ++ [mkTurn user userMessage])%list
           /\ List.length pre <= 4)
    /\ (exists older,
           addToHistory conversationHistory user userMessage
           = (older ++ reqHistory (queryRequest conversationHistory
                                                userMessage))%list).
Proof.
  intros h msg. unfold queryRequest. cbv zeta. cbn [reqQuery reqHistory].
  split; [reflexivity|]. split.
  - destruct (addToHistory_ends h user msg) as [pre ->].
    apply sliceLast_app_last.
  - unfold sliceLast.
    exists (firstn (List.length (addToHistory h user msg) - 5)
                   (addToHistory h user msg)).
    now rewrite firstn_skipn.
Qed.

(** ** The second tier of the RAG variant *)

Lemma fallbackLLMCall_nonempty (msg : string) (ctx : Catalog) (key : jsval)
      (net : fetchResult GeminiData) :
  StudyBuddyRag.fallbackLLMCall msg ctx key net <> EmptyString.
Proof.
  unfold StudyBuddyRag.fallbackLLMCall.
  destruct (truthy key); cbn [negb]; [|discriminate].
  destruct net as [|status text [data|]]; try discriminate.
  destruct (ok status); [|discriminate].
  destruct (candidateText data) as [| |[|c s]]; cbn; discriminate.
Qed.

(** X3.  When the first tier of the RAG variant fails, [callLLM] answers
    with the string of [fallbackLLMCall], and that string is never empty:
    the caller always gets a text to show.  Without a Gemini key that
    text does not depend on the network: no second request is made. *)
Theorem rag_failure_always_answers :
  forall h msg ctx key net1 net2,
    ragTierFails net1 = true ->
    fst (StudyBuddyRag.callLLM h msg ctx key net1 net2)
    = JStr (StudyBuddyRag.fallbackLLMCall msg ctx key net2)
    /\ StudyBuddyRag.fallbackLLMCall msg ctx key net2 <> EmptyString
    /\ (truthy key = false ->
        forall net2',
          StudyBuddyRag.fallbackLLMCall msg ctx key net2
          = StudyBuddyRag.fallbackLLMCall msg ctx key net2').
Proof.
  intros h msg ctx key net1 net2 Hf. split; [|split].
  - unfold StudyBuddyRag.callLLM. cbv zeta.
    destruct net1 as [|status text [data|]]; cbn in Hf |- *;
      try reflexivity.
    + apply negb_true_iff in Hf. now rewrite Hf.
    + now destruct (ok status).
  - apply fallbackLLMCall_nonempty.
  - intros Hk net2'. unfold StudyBuddyRag.fallbackLLMCall. now rewrite Hk.
Qed.

Lemma rag_failure_always_answers_witness :
  fst (StudyBuddyRag.callLLM [] "hi" demoCatalog JNull
                             (HttpResponse 503 None None) FetchRejected)
  = JStr (StudyBuddyRag.fallbackLLMCall "hi" demoCatalog JNull FetchRejected)
  /\ StudyBuddyRag.fallbackLLMCall "hi" demoCatalog JNull FetchRejected
     <> EmptyString.
Proof.
  destruct (rag_failure_always_answers
              [] "hi" demoCatalog JNull (HttpResponse 503 None None)
              FetchRejected eq_refl) as (H1 & H2 & _).
  split; [exact H1|exact H2].
Defined.

(** ** Sources in the answer *)

Lemma append_empty_r (s : string) : s ++ EmptyString = s.
Proof. induction s as [|c s IH]; [reflexivity|]. cbn. now rewrite IH. Qed.

Lemma join_head (sep : string) (c : ascii) (x : string) (l : list string) :
  exists tl, join sep (String c x :: l) = String c tl.
Proof. destruct l; cbn; eexists; reflexivity. Qed.

Lemma sourceLines_nonempty (s : Source) (l : list Source) :
  exists c tl,
    join nl (map StudyBuddyRag.sourceLine (s :: l)) = String c tl.
Proof.
  cbn [map]. unfold StudyBuddyRag.sourceLine at 1. unfold booksSign.
  cbn [append].
  match goal with
  | |- context [join nl (String ?c ?x :: ?l)] =>
      destruct (join_head nl c x l) as [tl ->]
  end.
  eexists _, _. reflexivity.
Qed.

(** X4.  In the RAG variant a successful reply with sources gets the
    block of sources exactly when some source has a subject other than
    the string [Unknown]: if all are [Unknown] the answer is the reply
    alone; otherwise it is the reply, a rule, the heading and one line
    for each source that is not [Unknown], in their order. *)
Theorem rag_sources_block :
  forall h msg ctx key status text a s ss net2,
    ok status = true ->
    (forallb (fun x => negb (StudyBuddyRag.notUnknown x)) (s :: ss) = true ->
     fst (StudyBuddyRag.callLLM
            h msg ctx key
            (HttpResponse status text (Some (mkQueryData a (Some (s :: ss)))))
            net2)
     = JStr (toStr a))
    /\ (existsb StudyBuddyRag.notUnknown (s :: ss) = true ->
        fst (StudyBuddyRag.callLLM
               h msg ctx key
               (HttpResponse status text
                             (Some (mkQueryData a (Some (s :: ss)))))
               net2)
        = JStr (toStr a ++ nl ++ nl ++ "---" ++ nl ++ "*Sources:*" ++ nl
                  ++ join nl (map StudyBuddyRag.sourceLine
                                  (filter StudyBuddyRag.notUnknown (s :: ss))))).
Proof.
  intros h msg ctx key status text a s ss net2 Hok.
  unfold StudyBuddyRag.callLLM. cbv zeta. rewrite Hok.
  cbn [response sources fst]. split; intros H.
  - assert (E : filter StudyBuddyRag.notUnknown (s :: ss) = []).
    { revert H. generalize (s :: ss). intros l.
      induction l as [|x l IH]; cbn; [reflexivity|].
      destruct (StudyBuddyRag.notUnknown x); cbn; [discriminate|exact IH]. }
    rewrite E. cbn [map join]. now rewrite append_empty_r.
  - assert (E : exists x l, filter StudyBuddyRag.notUnknown (s :: ss) = x :: l).
    { revert H. generalize (s :: ss). intros l.
      induction l as [|x l IH]; cbn; [discriminate|].
      destruct (StudyBuddyRag.notUnknown x); cbn; [eauto|exact IH]. }
    destruct E as (x & l & ->).
    destruct (sourceLines_nonempty x l) as (c & tl & ->). reflexivity.
Qed.

Lemma rag_sources_block_witness :
  fst (StudyBuddyRag.callLLM
         [] "hi" demoCatalog JNull
         (HttpResponse 200 None
            (Some (mkQueryData (JStr "Hello")
                     (Some [mkSource (JStr "Unknown") (JStr "Unit 1")]))))
         FetchRejected)
  = JStr "Hello"
  /\ fst (StudyBuddyRag.callLLM
            [] "hi" demoCatalog JNull
            (HttpResponse 200 None
               (Some (mkQueryData (JStr "Hello")
                        (Some [mkSource (JStr "Unknown") (JStr "Unit 1");
                               mkSource (JStr "NLP") (JStr "Unit 2")]))))
            FetchRejected)
     = JStr ("Hello" ++ nl ++ nl ++ "---" ++ nl ++ "*Sources:*" ++ nl
               ++ booksSign ++ " NLP - Unit 2").
Proof.
  split.
  - apply (proj1 (rag_sources_block
                    [] "hi" demoCatalog JNull 200 None (JStr "Hello")
                    (mkSource (JStr "Unknown") (JStr "Unit 1")) []
                    FetchRejected eq_refl)).
    reflexivity.
  - apply (proj2 (rag_sources_block
                    [] "hi" demoCatalog JNull 200 None (JStr "Hello")
                    (mkSource (JStr "Unknown") (JStr "Unit 1"))
                    [mkSource (JStr "NLP") (JStr "Unit 2")]
                    FetchRejected eq_refl)).
    reflexivity.
Defined.

(** X5.  When the backend of the Study Buddy variant answers ok with
    sources but with a reply that is missing or empty, [callLLM] still
    returns a text that is not empty: the string conversion of the reply
    ([undefined], [null] or nothing) followed by the sources; and that
    text is not recorded, the history gains the user turn only. *)
Theorem studyBuddy_sources_without_reply :
  forall h msg ctx status text a s ss,
    ok status = true ->
    truthy a = false ->
    exists shown,
      StudyBuddy.callLLM
        h msg ctx
        (HttpResponse status text (Some (mkQueryData a (Some (s :: ss)))))
      = (JStr shown, addToHistory h user msg)
      /\ shown <> EmptyString
      /\ startsWith shown (toStr a) = true
      /\ (a = JUndefined -> startsWith shown "undefined" = true).
Proof.
  intros h msg ctx status text a s ss Hok Ha.
  unfold StudyBuddy.callLLM. cbv zeta. rewrite Hok.
  cbn [negb response sources]. rewrite Ha.
  eexists. split; [reflexivity|]. split; [|split].
  - destruct a as [| |[|c x]]; cbn in Ha |- *; discriminate.
  - apply startsWith_refl_app.
  - intros ->. reflexivity.
Qed.

Lemma studyBuddy_sources_without_reply_witness :
  exists shown,
    StudyBuddy.callLLM
      [] "hi" demoCatalog
      (HttpResponse 200 None
         (Some (mkQueryData JUndefined
                            (Some [mkSource (JStr "NLP") JUndefined]))))
    = (JStr shown, [mkTurn user "hi"])
    /\ startsWith shown "undefined" = true.
Proof.
  destruct (studyBuddy_sources_without_reply
              [] "hi" demoCatalog 200 None JUndefined
              (mkSource (JStr "NLP") JUndefined) [] eq_refl eq_refl)
    as (shown & H1 & _ & _ & H4).
  exists shown. split; [exact H1|exact (H4 eq_refl)].
Defined.

(** ** Edge cases of the local responder *)

Lemma startsWith_refl (s : string) : startsWith s s = true.
Proof.
  induction s as [|c s IH]; [reflexivity|].
  cbn. now rewrite Ascii.eqb_refl.
Qed.

Lemma includes_refl (s : string) : includes s s = true.
Proof. apply includes_of_startsWith, startsWith_refl. Qed.

Lemma includes_empty (s : string) : includes s EmptyString = true.
Proof. now apply includes_of_startsWith. Qed.

Lemma searchSubjects_some (q : string) (l : list Subject) (s : Subject) :
  In s l -> nameMatches q s = true ->
  exists s', In s' l /\ nameMatches q s' = true
             /\ searchSubjects q l = Some (subjectDump s').
Proof.
  intros Hin Hm.
  destruct (searchSubjects_first_match q l)
    as [[_ Hall]|(pre & s' & post & -> & _ & Hs' & Hr)].
  - rewrite forallb_forall in Hall. specialize (Hall s Hin).
    rewrite Hm in Hall. discriminate.
  - exists s'. split; [|now split].
    apply in_or_app. right. now left.
Qed.

(** X6.  The local responder answers the empty query with the syllabus
    of the first subject of the catalog, since every name contains the
    empty string.  And a query that is the name of a subject of the
    catalog, in any case of letters, or a part of such a name, is never
    answered with the listing: the answer is the syllabus of a subject of
    the catalog whose name matches. *)
Theorem generateLocalResponse_edge_queries :
  (forall s rest,
      generateLocalResponse EmptyString (mkCatalog (Some (s :: rest)))
      = subjectDump s)
  /\ (forall query syllabusData s,
         In s (orEmpty (subjects syllabusData)) ->
         includes (toLowerCase (name s)) (toLowerCase query) = true ->
         exists s',
           In s' (orEmpty (subjects syllabusData))
           /\ nameMatches (toLowerCase query) s' = true
           /\ generateLocalResponse query syllabusData = subjectDump s'
           /\ generateLocalResponse query syllabusData
              <> subjectListing (orEmpty (subjects syllabusData))).
Proof.
  split.
  - intros s rest. unfold generateLocalResponse. cbv zeta.
    cbn [subjects orEmpty searchSubjects toLowerCase].
    unfold nameMatches. now rewrite includes_empty.
  - intros query cat s Hin Hinc.
    assert (Hm : nameMatches (toLowerCase query) s = true)
      by (unfold nameMatches; now rewrite Hinc).
    destruct (searchSubjects_some _ _ _ Hin Hm) as (s' & Hin' & Hm' & Hr).
    exists s'. unfold generateLocalResponse. cbv zeta. rewrite Hr.
    repeat split; try assumption.
    destruct (subjectDump_head s') as [tl ->].
    unfold subjectListing. cbn [append]. discriminate.
Qed.

Lemma generateLocalResponse_edge_queries_witness :
  exists s',
    In s' demoSubjects
    /\ generateLocalResponse "DEEP LEARNING" demoCatalog = subjectDump s'.
Proof.
  destruct (proj2 generateLocalResponse_edge_queries
                  "DEEP LEARNING" demoCatalog deepLearning
                  ltac:(right; left; reflexivity)
                  ltac:(vm_compute; reflexivity))
    as (s' & Hin & _ & Hr & _).
  exists s'. split; [exact Hin|exact Hr].
Defined.

(** ** Where src/llm.js sends the key *)

(** X7.  The request of src/llm.js carries an [Authorization] header only
    when it goes to openrouter.ai, and that only from a page on localhost
    or 127.0.0.1 with a stored key, which is the key carried; from any
    other host the request goes to /api/chat with the content type as its
    only header.  When [isLLMConfigured] is false (a local page without a
    key) the request would go to /api/chat too. *)
Theorem llm_request_key_routing :
  forall (loc : LlmRequest.Location) (localApiKey : string),
    (forall v,
        In ("Authorization", v) (LlmRequest.headers loc localApiKey) ->
        LlmRequest.apiUrl loc localApiKey
        = "https://openrouter.ai/api/v1/chat/completions"
        /\ LlmRequest.isLocal loc = true
        /\ localApiKey <> EmptyString
        /\ v = "Bearer " ++ localApiKey)
    /\ (LlmRequest.isLocal loc = false ->
        LlmRequest.apiUrl loc localApiKey = "/api/chat"
        /\ LlmRequest.headers loc localApiKey
           = [("Content-Type", "application/json")])
    /\ (LlmRequest.isLLMConfigured loc localApiKey = false ->
        LlmRequest.apiUrl loc localApiKey = "/api/chat").
Proof.
  intros loc key.
  unfold LlmRequest.headers, LlmRequest.apiUrl, LlmRequest.useDirectApi,
    LlmRequest.isLLMConfigured.
  split; [|split].
  - intros v Hin.
    destruct (LlmRequest.isLocal loc), key as [|c key]; cbn in Hin |- *;
      try (destruct Hin as [Hin|[]]; discriminate).
    destruct Hin as [Hin|[Hin|[Hin|[Hin|[]]]]]; try discriminate.
    injection Hin as <-. repeat split. discriminate.
  - intros ->. now split.
  - intros H. apply orb_false_iff in H as [H1 H2].
    apply negb_false_iff in H1. rewrite H1, H2. reflexivity.
Qed.

Lemma llm_request_key_routing_witness :
  LlmRequest.apiUrl hostedLocation "sk-test" = "/api/chat"
  /\ LlmRequest.headers hostedLocation "sk-test"
     = [("Content-Type", "application/json")]
  /\ LlmRequest.apiUrl localLocation "sk-test"
     = "https://openrouter.ai/api/v1/chat/completions".
Proof.
  destruct (llm_request_key_routing hostedLocation "sk-test")
    as (_ & H2 & _).
  destruct (H2 eq_refl) as [Hu Hh].
  destruct (llm_request_key_routing localLocation "sk-test")
    as (H1 & _ & _).
  destruct (H1 ("Bearer " ++ "sk-test")
               ltac:(right; left; reflexivity)) as (Hl & _).
  split; [exact Hu|]. split; [exact Hh|exact Hl].
Defined.

(** ** Grouping of the hits of a topic search *)

Lemma addToGroup_keys (t : TopicMatch) (acc : list (string * TopicGroup)) :
  map fst (addToGroup t acc)
  = (map fst acc
       ++ (if existsb (fun k => String.eqb k (groupKey t)) (map fst acc)
           then [] else [groupKey t]))%list.
Proof.
  induction acc as [|[k g] acc IH]; [reflexivity|].
  cbn [addToGroup map fst existsb].
  destruct (String.eqb k (groupKey t)) eqn:E; cbn [orb map fst app].
  - now rewrite app_nil_r.
  - now rewrite IH.
Qed.

Lemma existsb_key_In (key : string) (ks : list string) :
  existsb (fun k => String.eqb k key) ks = true <-> In key ks.
Proof.
  rewrite existsb_exists. split.
  - intros (k & Hin & E). apply String.eqb_eq in E. now subst.
  - intros Hin. exists key. split; [exact Hin|apply String.eqb_refl].
Qed.

Lemma addToGroup_In (t : TopicMatch) (acc : list (string * TopicGroup)) :
  NoDup (map fst acc) ->
  forall k g,
    In (k, g) (addToGroup t acc) ->
    (k <> groupKey t /\ In (k, g) acc)
    \/ (k = groupKey t
        /\ ((exists g0, In (k, g0) acc
                        /\ grTopics g = (grTopics g0 ++ [tmTopic t])%list)
            \/ (~ In k (map fst acc) /\ grTopics g = [tmTopic t]))).
Proof.
  induction acc as [|[k0 g0] acc IH]; intros Hnd k g Hin.
  - cbn in Hin. destruct Hin as [Hin|[]]. injection Hin as <- <-.
    right. split; [reflexivity|]. right. split; [intros []|reflexivity].
  - cbn [map fst] in Hnd. inversion Hnd as [|? ? Hnot Hnd']; subst.
    cbn [addToGroup] in Hin.
    destruct (String.eqb k0 (groupKey t)) eqn:E.
    + apply String.eqb_eq in E. subst k0.
      destruct Hin as [Hin|Hin].
      * injection Hin as <- <-. right. split; [reflexivity|]. left.
        exists g0. split; [now left|reflexivity].
      * left. split; [|now right].
        intros ->. apply Hnot. now apply (in_map fst) in Hin.
    + apply String.eqb_neq in E.
      destruct Hin as [Hin|Hin].
      * injection Hin as <- <-. left. split; [exact E|now left].
      * destruct (IH Hnd' k g Hin) as [[Hne H]|[-> [(g1 & H & Hg)|[Hn Hg]]]].
        -- left. split; [exact Hne|now right].
        -- right. split; [reflexivity|]. left. exists g1.
           split; [now right|exact Hg].
        -- right. split; [reflexivity|]. right. split; [|exact Hg].
           cbn [map fst]. intros [H|H]; [now apply E|now apply Hn].
Qed.

Lemma hitsOfKey_snoc (k : string) (ts : list TopicMatch) (t : TopicMatch) :
  hitsOfKey k (ts ++ [t])
  = (hitsOfKey k ts ++ (if String.eqb k (groupKey t) then [t] else []))%list.
Proof. unfold hitsOfKey. rewrite filter_app. reflexivity. Qed.

Lemma groupedOf_step (acc : list (string * TopicGroup))
      (ts : list TopicMatch) (t : TopicMatch) :
  groupedOf acc ts -> groupedOf (addToGroup t acc) (ts ++ [t]).
Proof.
  intros (Hnd & Hg & Hk). split; [|split].
  - rewrite addToGroup_keys.
    destruct (existsb _ _) eqn:E; [now rewrite app_nil_r|].
    apply NoDup_app; [exact Hnd|repeat constructor; intros []|].
    intros k Hin [<-|[]].
    apply existsb_key_In in Hin. rewrite Hin in E. discriminate.
  - intros k g Hin. rewrite hitsOfKey_snoc.
    destruct (addToGroup_In t acc Hnd k g Hin)
      as [[Hne H]|[-> [(g0 & H & E)|[Hn E]]]].
    + apply String.eqb_neq in Hne. rewrite Hne, app_nil_r. now apply Hg.
    + rewrite String.eqb_refl, map_app, E.
      destruct (Hg _ _ H) as [-> _].
      split; [reflexivity|]. now destruct (map tmTopic _).
    + rewrite String.eqb_refl, map_app, E.
      assert (Hnone : hitsOfKey (groupKey t) ts = []).
      { unfold hitsOfKey.
        destruct (filter _ ts) as [|x l] eqn:F; [reflexivity|].
        assert (Hx : In x (filter (fun t0 => String.eqb (groupKey t)
                                                        (groupKey t0)) ts))
          by (rewrite F; now left).
        apply filter_In in Hx as [Hx Ex]. apply String.eqb_eq in Ex.
        exfalso. apply Hn. rewrite Ex. now apply Hk. }
      rewrite Hnone. split; [reflexivity|discriminate].
  - intros t' Hin. rewrite addToGroup_keys.
    apply in_app_or in Hin as [Hin|[<-|[]]].
    + apply in_or_app. left. now apply Hk.
    + destruct (existsb _ _) eqn:E.
      * rewrite app_nil_r. now apply existsb_key_In.
      * apply in_or_app. right. now left.
Qed.

Lemma groupedOf_fold (ts done : list TopicMatch)
      (acc : list (string * TopicGroup)) :
  groupedOf acc done ->
  groupedOf (fold_left (fun a t => addToGroup t a) ts acc) (done ++ ts).
Proof.
  revert done acc. induction ts as [|t ts IH]; intros done acc H.
  - now rewrite app_nil_r.
  - cbn [fold_left].
    replace (done ++ t :: ts)%list with ((done ++ [t]) ++ ts)%list
      by (now rewrite <- app_assoc).
    apply IH, groupedOf_step, H.
Qed.

Lemma groupTopics_length (ts : list TopicMatch)
      (acc : list (string * TopicGroup)) :
  List.length (fold_left (fun a t => addToGroup t a) ts acc)
  <= List.length acc + List.length ts.
Proof.
  revert acc. induction ts as [|t ts IH]; intros acc; cbn; [lia|].
  specialize (IH (addToGroup t acc)).
  assert (H : List.length (addToGroup t acc) <= S (List.length acc)).
  { rewrite <- (length_map fst (addToGroup t acc)), addToGroup_keys,
      length_app, length_map.
    destruct (existsb _ _); cbn; lia. }
  lia.
Qed.

(** X8.  The grouping of [createTopicResults] loses and mixes nothing:
    the keys of the groups are pairwise different, every hit falls under
    the key of a group, and the topics of a group are the topics of the
    hits with that key, in the order of the hits; so no group is empty
    (its first topic, the one shown, exists) and there are at most as
    many groups as hits. *)
Theorem groupTopics_partition :
  forall topics : list TopicMatch,
    NoDup (map fst (groupTopics topics))
    /\ (forall k g,
           In (k, g) (groupTopics topics) ->
           grTopics g = map tmTopic (hitsOfKey k topics)
           /\ grTopics g <> [])
    /\ (forall t, In t topics -> In (groupKey t) (map fst (groupTopics topics)))
    /\ List.length (groupTopics topics) <= List.length topics.
Proof.
  intros topics.
  assert (H0 : groupedOf [] []).
  { split; [constructor|]. split; [intros ? ? []|intros ? []]. }
  destruct (groupedOf_fold topics [] [] H0) as (H1 & H2 & H3).
  cbn [app] in H2, H3.
  split; [exact H1|]. split; [exact H2|]. split; [exact H3|].
  apply (groupTopics_length topics []).
Qed.

Lemma groupTopics_partition_witness :
  map (fun e => grTopics (snd e)) (groupTopics demoHits)
  = [["Backpropagation"; "Regularization"]; ["Linear Regression"]]
  /\ In ("21AIC401T-3") (map fst (groupTopics demoHits)).
Proof.
  destruct (groupTopics_partition demoHits) as (_ & _ & H3 & _).
  split; [reflexivity|].
  apply (H3 (mkTopicMatch "Deep Learning" "21AIC401T" 3 "Training Networks"
                          "Regularization")).
  right. right. left. reflexivity.
Defined.

(** ** The serverless handlers *)

Lemma forward_cases {D : Type} (upstream : fetchResult D) :
  (exists data status text,
      upstream = HttpResponse status text (Some data)
      /\ ok status = true
      /\ forward upstream = mkReply 200 (PData data))
  \/ (exists message,
         replyPayload (forward upstream) = PError message
         /\ ok (replyStatus (forward upstream)) = false).
Proof.
  destruct upstream as [|status text json]; cbn [forward].
  - right. now exists "Internal server error".
  - destruct (ok status) eqn:E; cbn [negb].
    + destruct json as [data|].
      * left. now exists data, status, text.
      * right. now exists "Internal server error".
    + destruct text as [errorText|].
      * right. exists errorText. now split.
      * right. now exists "Internal server error".
Qed.

(** X9.  The handler of src/api/chat.js always answers, and it answers
    with data only together with status 200, which happens only for a
    POST with a body, with the key configured, when the upstream
    response is ok and parses; the data are then the upstream data.  All
    other answers carry an error message and a status that is not ok.
    When the method is not POST or the key is missing the answer does not
    depend on the upstream service: no request is made. *)
Theorem apiChat_handler_answers :
  forall (M D : Type) (apiKey : jsval) (req : ApiRequest M)
         (upstream : fetchResult D),
    ((exists data status text,
         ApiChat.handler apiKey req upstream = mkReply 200 (PData data)
         /\ reqMethod req = "POST" /\ truthy apiKey = true
         /\ reqBody req <> None
         /\ upstream = HttpResponse status text (Some data)
         /\ ok status = true)
     \/ (exists message,
            replyPayload (ApiChat.handler apiKey req upstream) = PError message
            /\ ok (replyStatus (ApiChat.handler apiKey req upstream)) = false))
    /\ (reqMethod req <> "POST" \/ truthy apiKey = false ->
        forall upstream' : fetchResult D,
          ApiChat.handler apiKey req upstream
          = ApiChat.handler apiKey req upstream').
Proof.
  intros M D apiKey req upstream. unfold ApiChat.handler. split.
  - destruct (String.eqb (reqMethod req) "POST") eqn:Em; cbn [negb].
    + apply String.eqb_eq in Em.
      destruct (truthy apiKey) eqn:Ek; cbn [negb].
      * destruct (reqBody req) as [b|] eqn:Eb.
        -- destruct (forward_cases upstream)
             as [(data & status & text & -> & Hok & ->)|(message & H1 & H2)].
           ++ left. exists data, status, text. repeat split; try assumption.
              discriminate.
           ++ right. now exists message.
        -- right. now exists "Internal server error".
      * right. now exists "API key not configured".
    + right. now exists "Method not allowed".
  - intros [Hm|Hk] upstream'.
    + apply String.eqb_neq in Hm. now rewrite Hm.
    + rewrite Hk. cbn [negb]. now destruct (String.eqb _ _).
Qed.

Lemma apiChat_handler_answers_witness :
  ApiChat.handler (M := unit) (D := ChatData) JUndefined
                  (mkApiRequest "POST" None) FetchRejected
  = ApiChat.handler (M := unit) JUndefined (mkApiRequest "POST" None)
                    (HttpResponse 200 None
                                  (Some (mkChatData false (JStr "hello")))).
Proof.
  apply (proj2 (apiChat_handler_answers
                  unit ChatData JUndefined (mkApiRequest "POST" None)
                  FetchRejected)).
  right. reflexivity.
Defined.

(** X10.  Behind the handler of src/api/chat.js, with the key
    configured, [callLLM] of src/llm.js returns what it would return
    talking to the upstream service itself, and leaves the same history:
    the reply on success, the rate limit notice when the upstream status
    is 429 and its text can be read, [null] otherwise. *)
Theorem proxy_is_transparent :
  forall (M : Type) (stringify : Payload ChatData -> string)
         (apiKey : jsval) (messages : M) (model : string)
         (h : list Turn) (msg : string) (ctx : Catalog)
         (upstream : fetchResult ChatData),
    truthy apiKey = true ->
    Llm.callLLM h msg ctx
                (viaProxy stringify
                          (ApiChat.handler apiKey (clientPost messages model)
                                           upstream))
    = Llm.callLLM h msg ctx upstream.
Proof.
  intros M stringify apiKey messages model h msg ctx upstream Hk.
  unfold ApiChat.handler, clientPost. cbn [reqMethod reqBody].
  change (String.eqb "POST" "POST") with true. cbn [negb]. rewrite Hk.
  cbn [negb].
  destruct upstream as [|status text json]; [reflexivity|].
  unfold forward, viaProxy, Llm.callLLM. cbv zeta.
  destruct (ok status) eqn:E; cbn [negb].
  - destruct json as [data|]; cbn [replyStatus replyPayload]; reflexivity.
  - destruct text as [errorText|]; cbn [replyStatus replyPayload].
    + rewrite E. reflexivity.
    + cbn. now destruct (status =? 429)%N.
Qed.

Lemma proxy_is_transparent_witness :
  Llm.callLLM [] "hi" demoCatalog
              (viaProxy (fun _ => "body")
                        (ApiChat.handler (JStr "sk-server")
                                         (clientPost tt "some-model")
                                         (HttpResponse 429 (Some "slow down")
                                                       None)))
  = (Some Llm.rateLimitNotice, [mkTurn user "hi"]).
Proof.
  rewrite (proxy_is_transparent unit (fun _ => "body") (JStr "sk-server") tt
                                "some-model" [] "hi" demoCatalog
                                (HttpResponse 429 (Some "slow down") None)
                                eq_refl).
  reflexivity.
Defined.

(** X11.  The handler that prefers Gemini answers a preflight request
    (OPTIONS) with status 200 and no body, whatever the keys.  With a
    Gemini key its answer does not depend on the OpenRouter key nor on
    the OpenRouter service: OpenRouter is never asked, also when Gemini
    fails.  Without a Gemini key its answer does not depend on Gemini. *)
Theorem gemini_handler_choice :
  forall (M : Type) (openRouterKey geminiKey : jsval)
         (req : ApiRequest (option M))
         (gemini : fetchResult GeminiData)
         (openRouter : fetchResult ChatData),
    (reqMethod req = "OPTIONS" ->
     ApiChatGemini.handler openRouterKey geminiKey req gemini openRouter
     = mkReply 200 PEnd)
    /\ (truthy geminiKey = true ->
        forall openRouterKey' openRouter',
          ApiChatGemini.handler openRouterKey geminiKey req gemini openRouter
          = ApiChatGemini.handler openRouterKey' geminiKey req gemini
                                  openRouter')
    /\ (truthy geminiKey = false ->
        forall gemini',
          ApiChatGemini.handler openRouterKey geminiKey req gemini openRouter
          = ApiChatGemini.handler openRouterKey geminiKey req gemini'
                                  openRouter).
Proof.
  intros M ork gk req gemini openRouter. unfold ApiChatGemini.handler.
  split; [|split].
  - intros ->. reflexivity.
  - intros Hk ork' openRouter'. rewrite Hk. cbn [negb].
    rewrite !andb_false_r. reflexivity.
  - intros Hk gemini'. rewrite Hk. reflexivity.
Qed.

Lemma gemini_handler_choice_witness :
  ApiChatGemini.handler (M := unit) JUndefined (JStr "g-key")
                        (clientPost (Some tt) "m")
                        (HttpResponse 500 (Some "boom") None) FetchRejected
  = ApiChatGemini.handler (JStr "or-key") (JStr "g-key")
                          (clientPost (Some tt) "m")
                          (HttpResponse 500 (Some "boom") None)
                          (HttpResponse 200 None
                             (Some (mkChatData false (JStr "from OpenRouter")))).
Proof.
  apply (proj1 (proj2 (gemini_handler_choice
                         unit JUndefined (JStr "g-key")
                         (clientPost (Some tt) "m")
                         (HttpResponse 500 (Some "boom") None)
                         FetchRejected))).
  reflexivity.
Defined.

(** X12.  Behind the handler that prefers Gemini, with a Gemini key,
    when Gemini answers ok with a body that parses, [callLLM] of
    src/llm.js never returns [null]: it returns the text of the first
    candidate, or the sentence [No response generated] when there is
    none, and records it as the assistant turn. *)
Theorem gemini_proxy_always_replies :
  forall (M : Type) (stringify : Payload ChatData -> string)
         (openRouterKey geminiKey : jsval) (messages : M) (model : string)
         (h : list Turn) (msg : string) (ctx : Catalog)
         (status : N) (text : option string) (data : GeminiData)
         (openRouter : fetchResult ChatData),
    truthy geminiKey = true ->
    ok status = true ->
    exists reply,
      Llm.callLLM h msg ctx
                  (viaProxy stringify
                            (ApiChatGemini.handler
                               openRouterKey geminiKey
                               (clientPost (Some messages) model)
                               (HttpResponse status text (Some data))
                               openRouter))
      = (Some reply, addToHistory (addToHistory h user msg) assistant reply)
      /\ reply <> EmptyString
      /\ (truthy (candidateText data) = true ->
          reply = toStr (candidateText data))
      /\ (truthy (candidateText data) = false ->
          reply = "No response generated").
Proof.
  intros M stringify ork gk messages model h msg ctx status text data
         openRouter Hk Hok.
  unfold ApiChatGemini.handler, clientPost. cbn [reqMethod reqBody].
  change (String.eqb "POST" "OPTIONS") with false.
  change (String.eqb "POST" "POST") with true. cbn [negb].
  rewrite Hk. cbn [negb]. rewrite andb_false_r. cbn [bodyMessages].
  unfold ApiChatGemini.geminiAnswer. rewrite Hok. cbn [negb]. cbv zeta.
  unfold viaProxy, Llm.callLLM. cbv zeta. cbn [replyStatus replyPayload].
  change (ok 200) with true. cbn [negb error choiceContent].
  destruct (candidateText data) as [| |[|c s]] eqn:Ec; cbn [truthy toStr];
    eexists; (split; [reflexivity|]);
    (split; [discriminate|]); split; intros; try reflexivity;
    discriminate.
Qed.

Lemma gemini_proxy_always_replies_witness :
  exists reply,
    Llm.callLLM [] "hi" demoCatalog
                (viaProxy (fun _ => "body")
                          (ApiChatGemini.handler
                             JUndefined (JStr "g-key")
                             (clientPost (Some tt) "m")
                             (HttpResponse 200 None
                                           (Some (mkGeminiData JUndefined)))
                             FetchRejected))
    = (Some reply, [mkTurn user "hi"; mkTurn assistant reply])
    /\ reply = "No response generated".
Proof.
  destruct (gemini_proxy_always_replies
              unit (fun _ => "body") JUndefined (JStr "g-key") tt "m"
              [] "hi" demoCatalog 200 None (mkGeminiData JUndefined)
              FetchRejected eq_refl eq_refl)
    as (reply & H1 & _ & _ & H4).
  exists reply. rewrite (H4 eq_refl) in *. split; [exact H1|reflexivity].
Defined.

(** ** The handler that asks Gemini through its SDK *)

Lemma append_assoc (a b c : string) : (a ++ b) ++ c = a ++ (b ++ c).
Proof. induction a as [|x a IH]; [reflexivity|]. cbn. now rewrite IH. Qed.

Lemma length_append (a b : string) : length (a ++ b) = length a + length b.
Proof. induction a as [|x a IH]; [reflexivity|]. cbn. now rewrite IH. Qed.

Lemma dropFirst_app (a b : string) : dropFirst (length a) (a ++ b) = b.
Proof. induction a as [|x a IH]; [now destruct b|exact IH]. Qed.

Lemma firstChars_app (a b : string) : firstChars (length a) (a ++ b) = a.
Proof.
  induction a as [|x a IH]; [now destruct b|]. cbn. now rewrite IH.
Qed.

Lemma endsWith_app (a b : string) : endsWith (a ++ b) b = true.
Proof.
  unfold endsWith. rewrite length_append.
  replace (length a + length b - length b) with (length a) by lia.
  rewrite dropFirst_app, String.eqb_refl.
  replace (length b <=? length a + length b)%nat with true
    by (symmetry; apply Nat.leb_le; lia).
  reflexivity.
Qed.

Lemma dropLast_app (a b : string) : dropLast (length b) (a ++ b) = a.
Proof.
  unfold dropLast. rewrite length_append.
  replace (length a + length b - length b) with (length a) by lia.
  apply firstChars_app.
Qed.

Lemma trimStart_blank (w s : string) :
  blank w = true -> trimStart (w ++ s) = trimStart s.
Proof.
  unfold blank. induction w as [|c w IH]; [reflexivity|].
  cbn. intros H. apply andb_true_iff in H as [Hc Hw]. rewrite Hc. now apply IH.
Qed.

Lemma trimEnd_blank (w : string) : blank w = true -> trimEnd w = EmptyString.
Proof.
  unfold blank. induction w as [|c w IH]; [reflexivity|].
  cbn. intros H. apply andb_true_iff in H as [Hc Hw].
  now rewrite (IH Hw), Hc.
Qed.

Lemma trimEnd_app_blank (s w : string) :
  blank w = true -> trimEnd (s ++ w) = trimEnd s.
Proof.
  intros H. induction s as [|c s IH]; [now apply trimEnd_blank|].
  cbn. now rewrite IH.
Qed.

Lemma trimEnd_last (s : string) (c : ascii) :
  isSpace c = false ->
  trimEnd (s ++ String c EmptyString) = s ++ String c EmptyString.
Proof.
  intros Hc. induction s as [|a s IH]; cbn [trimEnd append];
    [now rewrite Hc|].
  rewrite IH. now destruct s.
Qed.

Lemma trim_fenced (w1 w2 body : string) :
  blank w1 = true -> blank w2 = true ->
  trim (w1 ++ (ApiGemini.fenceJson ++ body ++ ApiGemini.fence) ++ w2)
  = ApiGemini.fenceJson ++ body ++ ApiGemini.fence.
Proof.
  intros H1 H2. unfold trim. rewrite (trimStart_blank _ _ H1).
  change (trimStart ((ApiGemini.fenceJson ++ body ++ ApiGemini.fence) ++ w2))
    with ((ApiGemini.fenceJson ++ body ++ ApiGemini.fence) ++ w2).
  rewrite (trimEnd_app_blank _ _ H2).
  replace (ApiGemini.fenceJson ++ body ++ ApiGemini.fence)
    with ((ApiGemini.fenceJson ++ body ++ "``") ++ "`")
    by (rewrite !append_assoc; reflexivity).
  now apply trimEnd_last.
Qed.

(** X13.  [extractSubjectFromPDF] unwraps a fenced answer exactly: for a
    text that is a block opened by three backquotes and [json] and closed
    by three backquotes, with white space before and after it, around a
    body without backquotes, what is handed to [JSON.parse] is the body,
    unchanged. *)
Theorem stripFences_unwraps :
  forall (w1 w2 body : string),
    blank w1 = true -> blank w2 = true -> lacks "096" body = true ->
    ApiGemini.stripFences
      (w1 ++ (ApiGemini.fenceJson ++ body ++ ApiGemini.fence) ++ w2)
    = body
    /\ (forall (J : Type) (parse : string -> option J),
           ApiGemini.extractSubjectFromPDF
             parse
             (SdkResponse
                (JStr (w1 ++ (ApiGemini.fenceJson ++ body ++ ApiGemini.fence)
                          ++ w2)))
           = parse body).
Proof.
  intros w1 w2 body H1 H2 Hb.
  assert (E : ApiGemini.stripFences
                (w1 ++ (ApiGemini.fenceJson ++ body ++ ApiGemini.fence) ++ w2)
              = body).
  { unfold ApiGemini.stripFences. cbv zeta.
    rewrite (trim_fenced w1 w2 body H1 H2).
    rewrite startsWith_refl_app.
    change (dropFirst 7 (ApiGemini.fenceJson ++ body ++ ApiGemini.fence))
      with (body ++ ApiGemini.fence).
    destruct body as [|c body]; [reflexivity|].
    cbn in Hb. apply andb_true_iff in Hb as [Hc Hb].
    apply negb_true_iff in Hc.
    replace (startsWith (String c body ++ ApiGemini.fence) ApiGemini.fence)
      with false by (cbn; now rewrite Hc).
    rewrite endsWith_app.
    apply (dropLast_app (String c body) ApiGemini.fence). }
  split; [exact E|].
  intros J parse. cbn [ApiGemini.extractSubjectFromPDF]. now rewrite E.
Qed.

Lemma stripFences_unwraps_witness :
  ApiGemini.stripFences
    (nl ++ (ApiGemini.fenceJson ++ "{}" ++ ApiGemini.fence) ++ nl)
  = "{}".
Proof.
  apply (proj1 (stripFences_unwraps nl nl "{}" eq_refl eq_refl eq_refl)).
Defined.

Lemma getSyllabusContext_cached (c : json)
      (files : list ApiGemini.fileResult) :
  jsonTruthy c = true ->
  fold_left ApiGemini.getSyllabusContext files c = c.
Proof.
  intros Hc. induction files as [|f files IH]; [reflexivity|].
  cbn [fold_left]. unfold ApiGemini.getSyllabusContext at 2.
  rewrite Hc. exact IH.
Qed.

Lemma jsonTruthy_false (v : json) :
  jsonTruthy v = false
  <-> v = JsonNull \/ v = JsonBool false
      \/ (exists s, v = JsonNumber (SpecFloat.S754_zero s))
      \/ v = JsonNumber SpecFloat.S754_nan
      \/ v = JsonString EmptyString.
Proof.
  split.
  - destruct v as [|[|]|[sg|sg| |sg m e]|[|c s]|items|members]; cbn;
      intros H; try discriminate; eauto 6.
  - intros [->|[->|[[sg ->]|[->| ->]]]]; reflexivity.
Qed.

(** X14.  The cache of [getSyllabusContext] is never refreshed: once it
    holds a truthy value every later call returns that value, whatever
    the file holds by then.  When the load throws while the cache is
    falsy, the empty catalog is stored, and all later calls return it.
    A file that parses to a falsy value is read again at the next call,
    which goes as if the earlier read had not been made; a file that
    parses to a truthy value is never read again.  The falsy values are
    [null], [false], the zeros, [NaN] and the empty string, no other. *)
Theorem getSyllabusContext_is_sticky :
  (forall c files,
      jsonTruthy c = true ->
      fold_left ApiGemini.getSyllabusContext files c = c)
  /\ (forall cache files,
         jsonTruthy cache = false ->
         fold_left ApiGemini.getSyllabusContext
                   (ApiGemini.FileThrows :: files) cache
         = ApiGemini.emptyCatalog)
  /\ (forall cache v files,
         jsonTruthy cache = false ->
         (jsonTruthy v = false ->
          forall file,
            fold_left ApiGemini.getSyllabusContext
                      (ApiGemini.FileParsed v :: file :: files) cache
            = fold_left ApiGemini.getSyllabusContext (file :: files) cache)
         /\ (jsonTruthy v = true ->
             fold_left ApiGemini.getSyllabusContext
                       (ApiGemini.FileParsed v :: files) cache
             = v))
  /\ (forall v,
         jsonTruthy v = false
         <-> v = JsonNull \/ v = JsonBool false
             \/ (exists s, v = JsonNumber (SpecFloat.S754_zero s))
             \/ v = JsonNumber SpecFloat.S754_nan
             \/ v = JsonString EmptyString).
Proof.
  split; [|split; [|split]].
  - intros c files Hc. now apply getSyllabusContext_cached.
  - intros cache files Hc. cbn [fold_left].
    unfold ApiGemini.getSyllabusContext at 2. rewrite Hc.
    now apply getSyllabusContext_cached.
  - intros cache v files Hc. split.
    + intros Hv file. cbn [fold_left].
      unfold ApiGemini.getSyllabusContext at 3. rewrite Hc.
      unfold ApiGemini.getSyllabusContext at 2 4. now rewrite Hv, Hc.
    + intros Hv. cbn [fold_left].
      unfold ApiGemini.getSyllabusContext at 2. rewrite Hc.
      now apply getSyllabusContext_cached.
  - exact jsonTruthy_false.
Qed.

Lemma getSyllabusContext_is_sticky_witness :
  fold_left ApiGemini.getSyllabusContext
            [ApiGemini.FileParsed (JsonBool false);
             ApiGemini.FileParsed (JsonNumber (SpecFloat.S754_zero false));
             ApiGemini.FileParsed (JsonString EmptyString);
             ApiGemini.FileThrows;
             ApiGemini.FileParsed (JsonObject [])]
            JsonNull
  = ApiGemini.emptyCatalog.
Proof.
  destruct getSyllabusContext_is_sticky as (_ & Hthrows & Hfalsy & _).
  rewrite (proj1 (Hfalsy JsonNull (JsonBool false) _ eq_refl) eq_refl).
  rewrite (proj1 (Hfalsy JsonNull
                         (JsonNumber (SpecFloat.S754_zero false)) _ eq_refl)
                 eq_refl).
  rewrite (proj1 (Hfalsy JsonNull (JsonString EmptyString) _ eq_refl) eq_refl).
  exact (Hthrows JsonNull _ eq_refl).
Defined.

(** X15.  In the handler that asks Gemini through its SDK, a request
    with a subject to search is always answered with status 200, also
    when the extraction fails (the SDK throws, the answer has no text, or
    the text does not parse): the subject in the answer is then [null].
    Such a request reads neither the cache nor the file.  And once the
    cache holds a catalog, or any other truthy value, no request changes
    it. *)
Theorem gemini_sdk_handler_search :
  forall (J : Type) (parse : string -> option J)
         (syllabusCache : json) (b : ApiGemini.Body)
         (file : ApiGemini.fileResult) (sdk : sdkResult),
    (truthy (ApiGemini.searchSubject b) = true ->
     ApiGemini.handler parse syllabusCache "POST" (Some b) file sdk
     = (Some (mkReply 200 (PData (ApiGemini.SubjectAnswer
                                    (ApiGemini.extractSubjectFromPDF parse sdk)))),
        syllabusCache)
     /\ (forall message,
            ApiGemini.extractSubjectFromPDF parse (SdkThrows message) = None)
     /\ ApiGemini.extractSubjectFromPDF parse (SdkResponse JUndefined) = None)
    /\ (forall c method body,
           jsonTruthy c = true ->
           snd (ApiGemini.handler parse c method body file sdk) = c).
Proof.
  intros J parse cache b file sdk. split.
  - intros Hs. split; [|split; reflexivity].
    unfold ApiGemini.handler.
    change (String.eqb "POST" "OPTIONS") with false.
    change (String.eqb "POST" "POST") with true. cbn [negb].
    rewrite Hs. cbn [negb]. now rewrite andb_false_r.
  - intros c method body Hc. unfold ApiGemini.handler.
    destruct (String.eqb method "OPTIONS"); [reflexivity|].
    destruct (negb (String.eqb method "POST")); [reflexivity|].
    destruct body as [b'|]; [|reflexivity].
    destruct (negb (truthy (ApiGemini.query b'))
              && negb (truthy (ApiGemini.searchSubject b')));
      [reflexivity|].
    destruct (truthy (ApiGemini.searchSubject b')); [reflexivity|].
    cbv zeta. unfold ApiGemini.getSyllabusContext. rewrite Hc.
    now destruct sdk.
Qed.

Lemma gemini_sdk_handler_search_witness :
  ApiGemini.handler (J := unit) (fun _ => None) JsonNull "POST"
                    (Some (ApiGemini.mkBody JUndefined (JStr "Compilers")))
                    ApiGemini.FileThrows (SdkThrows "quota")
  = (Some (mkReply 200 (PData (ApiGemini.SubjectAnswer None))), JsonNull).
Proof.
  apply (proj1 (proj1 (gemini_sdk_handler_search
                         unit (fun _ => None) JsonNull
                         (ApiGemini.mkBody JUndefined (JStr "Compilers"))
                         ApiGemini.FileThrows (SdkThrows "quota"))
                      eq_refl)).
Defined.

(** ** The page of the chat front end *)









Lemma trim_blank (s : string) : blank s = true -> trim s = EmptyString.
Proof.
  intros H. unfold trim.
  rewrite <- (append_empty_r s), (trimStart_blank s EmptyString H).
  reflexivity.
Qed.

(** X17.  [sendMessage] does nothing at all, to no part of the page,
    when the input holds white space only or while an answer is
    awaited; [handleKeyPress] does nothing then, nor for a key other
    than Enter; and a click on a suggestion while an answer is awaited
    only overwrites the input field.  When [sendMessage] does send, it
    empties the input field. *)
Theorem sendMessage_ignored :
  forall p : Page,
    (blank (inputValue p) = true \/ isLoading p = true ->
     sendMessage p = p /\ (forall key, handleKeyPress key p = p))
    /\ (forall key, key <> "Enter" -> handleKeyPress key p = p)
    /\ (isLoading p = true ->
        forall question,
          askQuestion question p
          = mkPage true question (sendDisabled p) (children p) (timers p))
    /\ (sendMessage p <> p -> inputValue (sendMessage p) = EmptyString).
Proof.
  intros p. split; [|split; [|split]].
  - intros H.
    assert (E : sendMessage p = p).
    { unfold sendMessage. cbv zeta. destruct H as [H|H].
      - now rewrite (trim_blank _ H).
      - rewrite H. now destruct (trim (inputValue p)). }
    split; [exact E|].
    intros key. unfold handleKeyPress. rewrite E. now destruct (_ && _).
  - intros key Hk. unfold handleKeyPress.
    apply String.eqb_neq in Hk. now rewrite Hk.
  - intros El question.
    unfold askQuestion, sendMessage. cbv zeta. cbn [inputValue isLoading].
    rewrite El. now destruct (trim question).
  - unfold sendMessage. cbv zeta.
    destruct (trim (inputValue p)); [congruence|].
    destruct (isLoading p); [congruence|reflexivity].
Qed.

Lemma sendMessage_ignored_witness :
  sendMessage (mkPage false "   " false [] [])
  = mkPage false "   " false [] [].
Proof.
  apply (proj1 (proj1 (sendMessage_ignored (mkPage false "   " false [] []))
                      (or_introl eq_refl))).
Defined.

(** ** What a match and a substitution are made of *)

Lemma rmatch_rep (ic greedy : bool) (min : nat) (a : regex) (st : mstate)
      (k : mstate -> option mstate) :
  rmatch ic (RRep min greedy a) st k
  = repLoop ic greedy a k (S (length (rest st))) min st.
Proof. reflexivity. Qed.

Lemma lacks_firstChars (c : ascii) (n : nat) (s : string) :
  lacks c s = true -> lacks c (firstChars n s) = true.
Proof.
  revert s. induction n as [|n IH]; intros [|b s] H; try reflexivity.
  cbn in H |- *. apply andb_true_iff in H as [Hb Hs].
  now rewrite Hb, (IH s Hs).
Qed.

Lemma eatLit_lacks (ic : bool) (c : ascii) (p s s' : string)
      (pv pv' : option ascii) :
  eatLit ic p pv s = Some (pv', s') -> lacks c s = true -> lacks c s' = true.
Proof.
  revert s pv. induction p as [|a p IH]; intros s pv H Hs.
  - cbn in H. now injection H as _ <-.
  - destruct s as [|b s]; [discriminate|].
    cbn [eatLit] in H. destruct (charEq ic a b); [|discriminate].
    cbn in Hs. apply andb_true_iff in Hs as [_ Hs]. now apply (IH s (Some b)).
Qed.

Section Reach.

Variables (ic : bool) (c : ascii).

Lemma eatClass_reach (f : ascii -> bool) (st m : mstate)
      (k : mstate -> option mstate) :
  stateLacks c st -> eatClass f st k = Some m ->
  exists st', stateLacks c st' /\ k st' = Some m.
Proof.
  intros [Hr Hc] H. unfold eatClass in H.
  destruct (rest st) as [|b s] eqn:E; [discriminate|].
  destruct (f b); [|discriminate].
  eexists. split; [|exact H]. split; [|exact Hc].
  cbn in Hr |- *. now apply andb_true_iff in Hr as [_ Hr].
Qed.

Lemma rmatch_reach (r : regex) :
  forall (st m : mstate) (k : mstate -> option mstate),
    stateLacks c st -> rmatch ic r st k = Some m ->
    exists st', stateLacks c st' /\ k st' = Some m.
Proof.
  induction r as [p| | | | | |a IHa b IHb|a IHa b IHb|min g a IHa|i a IHa];
    intros st m k Hst H.
  - cbn [rmatch] in H.
    destruct (eatLit ic p (prev st) (rest st)) as [[pv s']|] eqn:E;
      [|discriminate].
    eexists. split; [|exact H]. destruct Hst as [Hr Hc].
    split; [|exact Hc]. exact (eatLit_lacks _ _ _ _ _ _ _ E Hr).
  - exact (eatClass_reach _ _ _ _ Hst H).
  - exact (eatClass_reach _ _ _ _ Hst H).
  - exact (eatClass_reach _ _ _ _ Hst H).
  - cbn [rmatch] in H. destruct (atBol st); [|discriminate]. now exists st.
  - cbn [rmatch] in H. destruct (atEol st); [|discriminate]. now exists st.
  - rewrite rmatch_seq in H.
    destruct (IHa _ _ _ Hst H) as (st1 & Hst1 & H1).
    exact (IHb _ _ _ Hst1 H1).
  - cbn [rmatch] in H. destruct (rmatch ic a st k) as [m'|] eqn:E.
    + injection H as <-. exact (IHa _ _ _ Hst E).
    + exact (IHb _ _ _ Hst H).
  - rewrite rmatch_rep in H. revert H.
    generalize (S (length (rest st))). intros fuel. revert min st Hst.
    induction fuel as [|fuel IHf]; intros min st Hst H.
    + cbn in H. destruct min; [|discriminate]. now exists st.
    + cbn [repLoop] in H.
      assert (Hagain :
                rmatch ic a st
                  (fun st' =>
                     if (length (rest st') <? length (rest st))%nat
                     then repLoop ic g a k fuel (Nat.pred min) st'
                     else None) = Some m ->
                exists st', stateLacks c st' /\ k st' = Some m).
      { intros Ha. destruct (IHa _ _ _ Hst Ha) as (st1 & Hst1 & H1).
        destruct (length (rest st1) <? length (rest st))%nat; [|discriminate].
        exact (IHf _ _ Hst1 H1). }
      destruct min as [|min]; [|exact (Hagain H)].
      destruct g.
      * destruct (rmatch ic a st _) as [m'|] eqn:E.
        -- injection H as <-. now apply Hagain.
        -- now exists st.
      * destruct (k st) as [m'|] eqn:E.
        -- injection H as <-. now exists st.
        -- now apply Hagain.
  - cbn [rmatch] in H.
    destruct (IHa _ _ _ Hst H) as (st1 & [Hr1 Hc1] & H1).
    eexists. split; [|exact H1]. split; [exact Hr1|].
    intros j v [Hin|Hin].
    + injection Hin as _ <-. unfold consumed.
      apply lacks_firstChars, Hst.
    + exact (Hc1 j v Hin).
Qed.

Lemma rexec_lacks (r : regex) (pv : option ascii) (s : string) (m : mstate) :
  lacks c s = true -> rexec ic r pv s = Some m -> stateLacks c m.
Proof.
  intros Hs H. unfold rexec in H.
  assert (H0 : stateLacks c (MState pv s [])) by (split; [exact Hs|intros ? ? []]).
  destruct (rmatch_reach r _ _ _ H0 H) as (st' & Hst' & E).
  now injection E as <-.
Qed.

Lemma capture_lacks (i : nat) (cs : list (nat * string)) :
  (forall j v, In (j, v) cs -> lacks c v = true) ->
  lacks c (capture i cs) = true.
Proof.
  induction cs as [|[j v] cs IH]; intros H; [reflexivity|].
  cbn. destruct (Nat.eqb i j).
  - apply (H j v). now left.
  - apply IH. intros j' v' Hin. apply (H j' v'). now right.
Qed.

Lemma expand_lacks (t : list tpiece) (whole : string) (m : mstate) :
  templateLacks c t = true -> lacks c whole = true -> stateLacks c m ->
  lacks c (expand t whole m) = true.
Proof.
  intros Ht Hw [_ Hc]. unfold expand.
  induction t as [|p t IH]; [reflexivity|].
  cbn in Ht. apply andb_true_iff in Ht as [Hp Ht].
  destruct p as [s|i|]; cbn [fold_right];
    rewrite lacks_app, (IH Ht), andb_true_r;
    [exact Hp|now apply capture_lacks|exact Hw].
Qed.

Lemma replaceFrom_lacks (r : regex) (t : list tpiece) (s : string) :
  templateLacks c t = true ->
  forall (pv : option ascii) (skip : nat),
    lacks c s = true -> lacks c (replaceFrom ic r t pv s skip) = true.
Proof.
  intros Ht. induction s as [|b s IH]; intros pv skip Hs.
  - destruct skip; [|reflexivity].
    cbn [replaceFrom]. destruct (rexec ic r pv EmptyString) as [m|] eqn:E;
      [|reflexivity].
    rewrite lacks_app, andb_true_r.
    apply expand_lacks; [exact Ht|now apply lacks_firstChars|].
    exact (rexec_lacks _ _ _ _ Hs E).
  - assert (Hs' : lacks c s = true)
      by (cbn in Hs; now apply andb_true_iff in Hs as [_ Hs]).
    assert (Hb : negb (Ascii.eqb c b) = true)
      by (cbn in Hs; now apply andb_true_iff in Hs as [Hb _]).
    destruct skip as [|n]; [|exact (IH (Some b) n Hs')].
    cbn [replaceFrom].
    destruct (rexec ic r pv (String b s)) as [m|] eqn:E.
    + rewrite lacks_app.
      rewrite (expand_lacks t _ m Ht (lacks_firstChars _ _ _ Hs)
                            (rexec_lacks _ _ _ _ Hs E)).
      destruct (length (String b s) - length (rest m)) as [|n].
      * cbn [lacks andb]. now rewrite Hb, (IH (Some b) 0 Hs').
      * exact (IH (Some b) n Hs').
    + cbn [lacks]. now rewrite Hb, (IH (Some b) 0 Hs').
Qed.

Lemma replaceAll_lacks_char (r : regex) (t : list tpiece) (s : string) :
  templateLacks c t = true -> lacks c s = true ->
  lacks c (replaceAll ic r t s) = true.
Proof. intros Ht Hs. now apply replaceFrom_lacks. Qed.

End Reach.

Lemma replace_newline_lacks (s : string) :
  forall pv : option ascii,
    lacks "010" (replaceFrom false Render.reNewline [TLit "<br>"] pv s 0)
    = true.
Proof.
  induction s as [|b s IH]; intros pv; [reflexivity|].
  cbn [replaceFrom]. unfold rexec, Render.reNewline, nl.
  cbn [rmatch eatLit prev rest caps charEq].
  destruct (Ascii.eqb "010" b) eqn:E.
  - cbn [rest]. replace (length (String b s) - length s) with 1
      by (cbn [length]; lia).
    cbn [expand fold_right]. rewrite lacks_app. now rewrite IH.
  - cbn [lacks]. now rewrite E, IH.
Qed.

Lemma formatWith_tail_lacks (c : ascii) (marks : list string) (html : string) :
  lacks c tagAlphabet = true -> lacks c html = true ->
  lacks c (replaceAll false Render.reItems Render.tList
             (fold_left (fun h mark =>
                           replaceAll false (Render.reItem mark) Render.tItem h)
                        marks html)) = true.
Proof.
  intros Hc Hh.
  assert (H1 : templateLacks c Render.tList = true).
  { cbn. rewrite !andb_true_r.
    cbn in Hc. repeat (apply andb_true_iff in Hc as [? Hc]).
    repeat (apply andb_true_iff; split); assumption || reflexivity. }
  assert (H2 : templateLacks c Render.tItem = true).
  { cbn. rewrite !andb_true_r.
    cbn in Hc. repeat (apply andb_true_iff in Hc as [? Hc]).
    repeat (apply andb_true_iff; split); assumption || reflexivity. }
  apply replaceAll_lacks_char; [exact H1|].
  revert html Hh. induction marks as [|mk marks IH]; intros html Hh;
    [exact Hh|].
  cbn [fold_left]. apply IH. now apply replaceAll_lacks_char.
Qed.

(** ** The characters of the rendered markup *)

Ltac tag_chars H :=
  cbn in H; repeat (apply andb_true_iff in H as [? H]);
  cbn; rewrite ?andb_true_r;
  repeat (apply andb_true_iff; split); assumption || reflexivity.

Lemma inlineMarkup_lacks (c : ascii) (text : string) :
  lacks c tagAlphabet = true -> lacks c text = true ->
  lacks c (Render.inlineMarkup text) = true.
Proof.
  intros Hc Ht. unfold Render.inlineMarkup. cbv zeta.
  repeat (apply replaceAll_lacks_char; [tag_chars Hc|]).
  exact Ht.
Qed.

Lemma wrap_lacks (c : ascii) (html : string) :
  lacks c tagAlphabet = true -> lacks c html = true ->
  lacks c (Render.wrap html) = true.
Proof.
  intros Hc Hh.
  assert (H1 : lacks c "<p>" = true) by tag_chars Hc.
  assert (H2 : lacks c "</p>" = true) by tag_chars Hc.
  unfold Render.wrap. now rewrite !lacks_app, Hh, H1, H2.
Qed.

Lemma formatWith_lacks (c : ascii) (marks : list string) (text : jsval)
      (html : string) :
  lacks c tagAlphabet = true -> lacks c (toStr text) = true ->
  Render.formatWith marks text = Some html -> lacks c html = true.
Proof.
  intros Hc Ht H. unfold Render.formatWith in H.
  destruct (negb (truthy text)); [discriminate|].
  injection H as <-.
  apply formatWith_tail_lacks; [exact Hc|].
  apply wrap_lacks; [exact Hc|]. now apply inlineMarkup_lacks.
Qed.

Lemma formatWith_no_newline (marks : list string) (text : jsval)
      (html : string) :
  Render.formatWith marks text = Some html -> lacks "010" html = true.
Proof.
  intros H. unfold Render.formatWith in H.
  destruct (negb (truthy text)); [discriminate|].
  injection H as <-.
  apply formatWith_tail_lacks; [reflexivity|].
  apply wrap_lacks; [reflexivity|].
  unfold Render.inlineMarkup. cbv zeta. apply replace_newline_lacks.
Qed.

(** X18.  The markup that [formatLLMResponse] returns never contains a
    line feed, whatever the text: every line feed of the text has become
    a line break or a paragraph boundary.  So in src/llm.js and in the
    Study Buddy variant. *)
Theorem formatLLMResponse_no_line_feed :
  forall (text : jsval) (html : string),
    (Llm.formatLLMResponse text = Some html -> lacks "010" html = true)
    /\ (StudyBuddy.formatLLMResponse text = Some html ->
        lacks "010" html = true).
Proof. intros text html. split; apply formatWith_no_newline. Qed.

Lemma formatLLMResponse_no_line_feed_witness :
  Llm.formatLLMResponse (JStr ("# a" ++ nl ++ nl ++ "- b" ++ nl ++ "c"))
  = Some "<p><h2>a</h2></p><ul><li>b</li></ul><br>c</p>"
  /\ lacks "010" "<p><h2>a</h2></p><ul><li>b</li></ul><br>c</p>" = true.
Proof.
  assert (E : Llm.formatLLMResponse
                (JStr ("# a" ++ nl ++ nl ++ "- b" ++ nl ++ "c"))
              = Some "<p><h2>a</h2></p><ul><li>b</li></ul><br>c</p>")
    by (vm_compute; reflexivity).
  split; [exact E|].
  exact (proj1 (formatLLMResponse_no_line_feed _ _) E).
Defined.

(** X19.  [formatLLMResponse] adds nothing but its tags: a character
    that is not one of the characters of those tags (the angle brackets,
    the slash, the letters and digits of p, h2, h3, h4, strong, em, code,
    br, ul, li) and does not occur in the text does not occur in the
    markup.  So the renderer itself never writes a quote, an ampersand
    or an equals sign. *)
Theorem formatLLMResponse_adds_only_tags :
  forall (c : ascii) (text : jsval) (html : string),
    lacks c tagAlphabet = true ->
    lacks c (toStr text) = true ->
    (Llm.formatLLMResponse text = Some html -> lacks c html = true)
    /\ (StudyBuddy.formatLLMResponse text = Some html ->
        lacks c html = true).
Proof.
  intros c text html Hc Ht. split; now apply formatWith_lacks.
Qed.

Lemma formatLLMResponse_adds_only_tags_witness :
  Llm.formatLLMResponse (JStr "**a** and *b*")
  = Some "<p><strong>a</strong> and <em>b</em></p>"
  /\ lacks "034" "<p><strong>a</strong> and <em>b</em></p>" = true.
Proof.
  assert (E : Llm.formatLLMResponse (JStr "**a** and *b*")
              = Some "<p><strong>a</strong> and <em>b</em></p>")
    by (vm_compute; reflexivity).
  split; [exact E|].
  exact (proj1 (formatLLMResponse_adds_only_tags
                  "034" (JStr "**a** and *b*") _ eq_refl eq_refl) E).
Defined.

(** ** One pair of delimiters *)

Lemma eatLit_self (d' : string) :
  forall (dc : ascii) (pv : option ascii) (tail : string),
    eatLit false (String dc d') pv (String dc d' ++ tail)
    = Some (Some (lastOf dc d'), tail).
Proof.
  induction d' as [|b d' IH]; intros dc pv tail; cbn [eatLit append charEq];
    rewrite Ascii.eqb_refl; [reflexivity|].
  exact (IH b (Some dc) tail).
Qed.

Lemma dotty_cons (b : ascii) (t : string) :
  dotty (String b t) = true ->
  negb (isLineTerminator b) = true /\ dotty t = true.
Proof. unfold dotty. cbn [list_ascii_of_string forallb]. apply andb_true_iff. Qed.

Section LazyDot.

Variables (k : mstate -> option mstate) (caps0 : list (nat * string))
          (tail : string) (m : mstate).

Hypothesis Hend : forall pvx, k (MState pvx tail caps0) = Some m.

Lemma lazy_dot_loop (t : string) :
  forall (pv : option ascii) (fuel : nat),
    length (t ++ tail) < fuel -> dotty t = true ->
    (forall t1 b t2 pvx,
        t = t1 ++ String b t2 ->
        k (MState pvx (String b t2 ++ tail) caps0) = None) ->
    repLoop false false RDot k fuel 0 (MState pv (t ++ tail) caps0) = Some m.
Proof.
  induction t as [|b t IH]; intros pv fuel Hf Hd Hfail;
    (destruct fuel as [|fuel]; [lia|]); cbn [repLoop].
  - cbn [append]. now rewrite Hend.
  - rewrite (Hfail EmptyString b t pv eq_refl).
    apply dotty_cons in Hd as [Hb Hd].
    cbn [rmatch eatClass rest append caps]. rewrite Hb.
    cbn [rest length].
    replace (length (t ++ tail) <? S (length (t ++ tail)))%nat with true
      by (symmetry; apply Nat.ltb_lt; lia).
    apply IH; [cbn in Hf; lia|exact Hd|].
    intros t1 b' t2 pvx E. apply (Hfail (String b t1) b' t2 pvx).
    now rewrite E.
Qed.

Lemma lazy_dot_plus (b : ascii) (t : string) (pv : option ascii) :
  dotty (String b t) = true ->
  (forall t1 b' t2 pvx,
      t = t1 ++ String b' t2 ->
      k (MState pvx (String b' t2 ++ tail) caps0) = None) ->
  rmatch false (RPlusLazy RDot) (MState pv (String b t ++ tail) caps0) k
  = Some m.
Proof.
  intros Hd Hfail. unfold RPlusLazy. rewrite rmatch_rep.
  cbn [rest repLoop]. apply dotty_cons in Hd as [Hb Hd].
  cbn [rmatch eatClass rest append caps]. rewrite Hb.
  cbn [rest length Nat.pred].
  replace (length (t ++ tail) <? S (length (t ++ tail)))%nat with true
    by (symmetry; apply Nat.ltb_lt; lia).
  apply lazy_dot_loop; [lia|exact Hd|exact Hfail].
Qed.

End LazyDot.

Lemma lacks_mid (c : ascii) (t1 t2 : string) (b : ascii) :
  lacks c (t1 ++ String b t2) = true -> Ascii.eqb c b = false.
Proof.
  rewrite lacks_app. cbn [lacks]. intros H.
  apply andb_true_iff in H as [_ H]. apply andb_true_iff in H as [H _].
  now apply negb_true_iff in H.
Qed.

Lemma rmatch_lit (ic : bool) (p : string) (st : mstate)
      (k : mstate -> option mstate) :
  rmatch ic (RLit p) st k
  = match eatLit ic p (prev st) (rest st) with
    | Some (pv, s') => k (MState pv s' (caps st))
    | None => None
    end.
Proof. reflexivity. Qed.

Lemma rmatch_group (ic : bool) (i : nat) (a : regex) (st : mstate)
      (k : mstate -> option mstate) :
  rmatch ic (RGroup i a) st k
  = rmatch ic a st
           (fun st' => k (MState (prev st') (rest st')
                                 ((i, consumed st st') :: caps st'))).
Proof. reflexivity. Qed.

Lemma reDelim_match (dc : ascii) (d' t post : string) (b : ascii)
      (pv : option ascii) :
  dotty (String b t) = true -> lacks dc (String b t) = true ->
  rexec false (Render.reDelim (String dc d')) pv
        (String dc d' ++ String b t ++ String dc d' ++ post)
  = Some (MState (Some (lastOf dc d')) post [(1, String b t)]).
Proof.
  intros Hd Hl. unfold rexec, Render.reDelim. cbn [rseq].
  rewrite rmatch_seq, rmatch_lit. cbn [prev rest caps].
  rewrite eatLit_self. rewrite rmatch_seq, rmatch_group.
  apply (lazy_dot_plus _ [] (String dc d' ++ post)).
  - intros pvx. rewrite rmatch_lit. cbn [prev rest caps].
    rewrite eatLit_self.
    unfold consumed. cbn [rest].
    replace (length (String b t ++ String dc d' ++ post)
             - length (String dc d' ++ post))
      with (length (String b t))
      by (repeat first [rewrite length_append | progress cbn [length append]];
          lia).
    now rewrite firstChars_app.
  - exact Hd.
  - intros t1 b' t2 pvx E. rewrite rmatch_lit. cbn [prev rest caps].
    cbn [eatLit append charEq].
    assert (Hb : Ascii.eqb dc b' = false).
    { apply (lacks_mid dc (String b t1) t2 b'). cbn [append].
      rewrite <- E. exact Hl. }
    now rewrite Hb.
Qed.

Lemma replaceFrom_skip (ic : bool) (r : regex) (t : list tpiece)
      (a b : string) :
  forall pv : option ascii,
    exists pv', replaceFrom ic r t pv (a ++ b) (length a)
                = replaceFrom ic r t pv' b 0.
Proof.
  induction a as [|x a IH]; intros pv; [now exists pv|].
  cbn [append length replaceFrom]. apply IH.
Qed.

Lemma includes_one_lacks (c : ascii) (s : string) :
  lacks c s = true -> includes s (String c EmptyString) = false.
Proof. intros H. now apply (lacks_includes c); [cbn; rewrite Ascii.eqb_refl|]. Qed.

Lemma reDelim_replace (dc : ascii) (d' name pre t post : string) (b : ascii) :
  lacks dc pre = true -> lacks dc (String b t) = true ->
  lacks dc post = true -> dotty (String b t) = true ->
  replaceAll false (Render.reDelim (String dc d')) (Render.tag name)
             (pre ++ String dc d' ++ String b t ++ String dc d' ++ post)
  = pre ++ ("<" ++ name ++ ">") ++ String b t ++ ("</" ++ name ++ ">") ++ post.
Proof.
  intros Hpre Ht Hpost Hd. unfold replaceAll. generalize (@None ascii).
  assert (Hlit : startsLit (String dc EmptyString)
                           (Render.reDelim (String dc d')) = true).
  { cbn. now rewrite Ascii.eqb_refl. }
  induction pre as [|x pre IH]; intros pv.
  - cbn [append replaceFrom]. 
    change (String dc (d' ++ String b (t ++ String dc (d' ++ post))))
      with (String dc d' ++ String b t ++ String dc d' ++ post).
    rewrite reDelim_match by assumption.
    cbn [rest].
    replace (length (String dc d' ++ String b t ++ String dc d' ++ post)
             - length post)
      with (S (length (d' ++ String b t ++ String dc d')))
      by (repeat first [rewrite length_append | progress cbn [length append]];
          lia).
    cbn [expand Render.tag fold_right capture caps Nat.eqb].
    rewrite append_empty_r.
    replace (d' ++ String b (t ++ String dc (d' ++ post)))
      with ((d' ++ String b t ++ String dc d') ++ post)
      by (rewrite !append_assoc; reflexivity).
    destruct (replaceFrom_skip false (Render.reDelim (String dc d'))
                               (Render.tag name)
                               (d' ++ String b t ++ String dc d') post
                               (Some dc)) as [pv' ->].
    rewrite (replaceFrom_id _ _ _ Hlit post pv'
                            (includes_one_lacks dc post Hpost)).
    now rewrite !append_assoc.
  - cbn in Hpre. apply andb_true_iff in Hpre as [Hx Hpre].
    apply negb_true_iff in Hx.
    cbn [append replaceFrom]. unfold rexec.
    rewrite (rmatch_startsLit _ (String dc EmptyString) _ _ Hlit)
      by (cbn; now rewrite Hx).
    now rewrite (IH Hpre).
Qed.

Lemma reDelim_replace_text (dc : ascii) (d' name pre t post : string) :
  t <> EmptyString ->
  lacks dc pre = true -> lacks dc t = true -> lacks dc post = true ->
  dotty t = true ->
  replaceAll false (Render.reDelim (String dc d')) (Render.tag name)
             (pre ++ String dc d' ++ t ++ String dc d' ++ post)
  = pre ++ ("<" ++ name ++ ">") ++ t ++ ("</" ++ name ++ ">") ++ post.
Proof.
  intros Hne. destruct t as [|b t]; [congruence|].
  intros. now apply reDelim_replace.
Qed.

Lemma dotty_of_lacks (t : string) :
  lacks "010" t = true -> lacks "013" t = true -> dotty t = true.
Proof.
  unfold dotty. induction t as [|b t IH]; intros H1 H2; [reflexivity|].
  cbn [lacks] in H1, H2.
  apply andb_true_iff in H1 as [Hb1 H1]. apply andb_true_iff in H2 as [Hb2 H2].
  cbn [list_ascii_of_string forallb]. rewrite (IH H1 H2), andb_true_r.
  unfold isLineTerminator. apply negb_true_iff in Hb1, Hb2. cbv zeta.
  destruct (Nat.eqb_spec (nat_of_ascii b) 10) as [E|_];
    [apply (f_equal ascii_of_nat) in E; rewrite ascii_nat_embedding in E;
     subst b; discriminate|].
  destruct (Nat.eqb_spec (nat_of_ascii b) 13) as [E|_];
    [apply (f_equal ascii_of_nat) in E; rewrite ascii_nat_embedding in E;
     subst b; discriminate|].
  reflexivity.
Qed.

Lemma includes_cons_false (b : ascii) (s lit : string) :
  startsWith (String b s) lit = false ->
  includes (String b s) lit = includes s lit.
Proof. intros H. cbn [includes]. now rewrite H. Qed.

Lemma includes_skip (c : ascii) (l a b : string) :
  lacks c a = true -> includes (a ++ b) (String c l) = includes b (String c l).
Proof.
  induction a as [|x a IH]; intros H; [reflexivity|].
  cbn [lacks] in H. apply andb_true_iff in H as [Hx H].
  apply negb_true_iff in Hx.
  change (String x a ++ b) with (String x (a ++ b)).
  rewrite includes_cons_false by (cbn [startsWith]; now rewrite Hx).
  exact (IH H).
Qed.

(** A text with one pair of single asterisks has no double asterisk. *)
Lemma includes_no_double (pre t post : string) :
  t <> EmptyString ->
  lacks "*" pre = true -> lacks "*" t = true -> lacks "*" post = true ->
  includes (pre ++ "*" ++ t ++ "*" ++ post) "**" = false.
Proof.
  intros Hne Hpre Ht Hpost.
  rewrite (includes_skip "*" "*" pre) by exact Hpre.
  destruct t as [|b t]; [congruence|].
  assert (Hb : Ascii.eqb "*" b = false).
  { cbn [lacks] in Ht. apply andb_true_iff in Ht as [Hb _].
    now apply negb_true_iff in Hb. }
  change ("*" ++ String b t ++ "*" ++ post)
    with (String "*" (String b t ++ "*" ++ post)).
  rewrite includes_cons_false
    by (cbn [startsWith append]; rewrite Hb; reflexivity).
  rewrite (includes_skip "*" "*" (String b t)) by exact Ht.
  destruct post as [|b2 post]; [reflexivity|].
  assert (Hb2 : Ascii.eqb "*" b2 = false).
  { cbn [lacks] in Hpost. apply andb_true_iff in Hpost as [Hb2 _].
    now apply negb_true_iff in Hb2. }
  change ("*" ++ String b2 post) with (String "*" (String b2 post)).
  rewrite includes_cons_false
    by (cbn [startsWith]; rewrite Hb2; reflexivity).
  now apply (lacks_includes "*").
Qed.

Lemma replaceAll_no_lit (r : regex) (t : list tpiece) (lit s : string) :
  startsLit lit r = true -> includes s lit = false ->
  replaceAll false r t s = s.
Proof. intros Hr Hs. unfold replaceAll. now apply (replaceFrom_id r t lit). Qed.

Ltac split_plain H :=
  unfold plainPiece in H;
  repeat (let H' := fresh H in apply andb_true_iff in H as [H H']).

Ltac lacks_pieces :=
  repeat (rewrite lacks_app);
  repeat match goal with
         | H : lacks ?c ?s = true |- context [lacks ?c ?s] => rewrite H
         end;
  reflexivity.

Ltac li_free :=
  rewrite ?append_assoc; cbn [append];
  repeat first
         [ rewrite includes_cons_false by reflexivity
         | rewrite (includes_skip "<" "li>") by assumption
         | progress cbn [append] ];
  reflexivity.

(** The steps of the renderer after the inline markup, on a text made of
    plain pieces around one element. *)
Ltac render_tail :=
  cbn [fold_left];
  rewrite (replaceAll_lacks (Render.reItem "-") _ "<p>- " eq_refl "-" _)
    by (reflexivity || (unfold Render.wrap; lacks_pieces));
  rewrite (replaceAll_no_lit Render.reItems _ "<li>" _ eq_refl)
    by (unfold Render.wrap; li_free);
  unfold Render.wrap; now rewrite !append_assoc.

Ltac no_header text :=
  rewrite (replaceAll_lacks (Render.reHeader "###") _ "### " eq_refl "#" text)
    by (reflexivity || lacks_pieces);
  rewrite (replaceAll_lacks (Render.reHeader "##") _ "## " eq_refl "#" text)
    by (reflexivity || lacks_pieces);
  rewrite (replaceAll_lacks (Render.reHeader "#") _ "# " eq_refl "#" text)
    by (reflexivity || lacks_pieces).

Ltac no_breaks :=
  rewrite (replaceAll_lacks Render.reBlank _ (nl ++ nl) eq_refl "010" _)
    by (reflexivity || lacks_pieces);
  rewrite (replaceAll_lacks Render.reNewline _ nl eq_refl "010" _)
    by (reflexivity || lacks_pieces).

Lemma truthy_around (pre : string) (c : ascii) (s : string) :
  negb (truthy (JStr (pre ++ String c s))) = false.
Proof. now destruct pre. Qed.

Ltac falsy_guard pre :=
  match goal with
  | |- context [negb (truthy (JStr ?x))] =>
      replace (negb (truthy (JStr x))) with false
        by (symmetry; exact (truthy_around pre _ _))
  end.

(** X20.  What the renderer does with one emphasised phrase.  Let [pre],
    [t] and [post] be pieces of text without hash sign, asterisk,
    backquote, line feed, dash and opening angle bracket, [t] not empty and
    on one line.  Then [t] between double asterisks comes out
    between [<strong>] and [</strong>], between single asterisks between
    [<em>] and [</em>], between backquotes between [<code>] and [</code>];
    the text before and after is unchanged and the whole is one
    paragraph. *)
Theorem formatLLMResponse_one_element :
  forall pre t post : string,
    plainPiece pre = true -> plainPiece t = true -> plainPiece post = true ->
    t <> EmptyString -> oneLine t = true ->
    Llm.formatLLMResponse (JStr (pre ++ "**" ++ t ++ "**" ++ post))
    = Some ("<p>" ++ pre ++ "<strong>" ++ t ++ "</strong>" ++ post ++ "</p>")
    /\ Llm.formatLLMResponse (JStr (pre ++ "*" ++ t ++ "*" ++ post))
       = Some ("<p>" ++ pre ++ "<em>" ++ t ++ "</em>" ++ post ++ "</p>")
    /\ Llm.formatLLMResponse
         (JStr (pre ++ Render.backquote ++ t ++ Render.backquote ++ post))
       = Some ("<p>" ++ pre ++ "<code>" ++ t ++ "</code>" ++ post ++ "</p>").
Proof.
  intros pre t post Hpre Ht Hpost Hne Hcr.
  split_plain Hpre. split_plain Ht. split_plain Hpost.
  assert (Hd : dotty t = true).
  { unfold oneLine in Hcr.
    do 2 (apply andb_true_iff in Hcr as [Hcr _]).
    apply andb_true_iff in Hcr as [_ Hcr]. now apply dotty_of_lacks. }
  unfold Llm.formatLLMResponse, Render.formatWith.
  repeat split.
  - falsy_guard pre. cbn [toStr].
    unfold Render.inlineMarkup. cbv zeta.
    no_header (pre ++ "**" ++ t ++ "**" ++ post).
    rewrite (reDelim_replace_text "*" "*" "strong" pre t post)
      by assumption.
    rewrite (replaceAll_lacks (Render.reDelim "*") _ "*" eq_refl "*" _)
      by (reflexivity || lacks_pieces).
    rewrite (replaceAll_lacks (Render.reDelim Render.backquote) _
                              Render.backquote eq_refl "096" _)
      by (reflexivity || lacks_pieces).
    no_breaks. render_tail.
  - falsy_guard pre. cbn [toStr].
    unfold Render.inlineMarkup. cbv zeta.
    no_header (pre ++ "*" ++ t ++ "*" ++ post).
    rewrite (replaceAll_no_lit (Render.reDelim "**") _ "**" _ eq_refl)
      by now apply includes_no_double.
    rewrite (reDelim_replace_text "*" EmptyString "em" pre t post)
      by assumption.
    rewrite (replaceAll_lacks (Render.reDelim Render.backquote) _
                              Render.backquote eq_refl "096" _)
      by (reflexivity || lacks_pieces).
    no_breaks. render_tail.
  - falsy_guard pre. cbn [toStr].
    unfold Render.inlineMarkup, Render.backquote. cbv zeta.
    no_header (pre ++ String "096" EmptyString ++ t
                   ++ String "096" EmptyString ++ post).
    rewrite (replaceAll_lacks (Render.reDelim "**") _ "**" eq_refl "*" _)
      by (reflexivity || lacks_pieces).
    rewrite (replaceAll_lacks (Render.reDelim "*") _ "*" eq_refl "*" _)
      by (reflexivity || lacks_pieces).
    rewrite (reDelim_replace_text "096" EmptyString "code" pre t post)
      by assumption.
    no_breaks. render_tail.
Qed.

Lemma formatLLMResponse_one_element_witness :
  Llm.formatLLMResponse (JStr "Practise **gradient descent** today")
  = Some "<p>Practise <strong>gradient descent</strong> today</p>"
  /\ Llm.formatLLMResponse (JStr "Practise *gradient descent* today")
     = Some "<p>Practise <em>gradient descent</em> today</p>"
  /\ Llm.formatLLMResponse (JStr "Practise `gradient descent` today")
     = Some "<p>Practise <code>gradient descent</code> today</p>".
Proof.
  apply (formatLLMResponse_one_element
           "Practise " "gradient descent" " today");
    (reflexivity || discriminate).
Defined.
